(** * Spring Actuator API checker: a shallow embedding of
      [spring_actuator_checker.py] and the properties of its check-and-aggregate
      engine.

    The HTTP library, the wall clock and the remote service are the
    environment of the program: they are modelled by a [World] that the
    program reads through a state-and-exception monad.  Logging has no
    influence on any returned value and is left out. *)

From Stdlib Require Import ZArith List String Ascii Bool Lia.
From Stdlib Require Import DecimalString Floats.SpecFloat.
Import ListNotations.
Set Warnings "-register-all".
Open Scope string_scope.
Open Scope Z_scope.

(** ** Python values *)

Module Py.

(** Python floats are IEEE-754 binary64 numbers. *)
Definition float : Type := spec_float.
Definition float_sub : float -> float -> float := SFsub 53 1024.

(** The objects [json.loads] can build, [None] included.  A [dict] keeps its
    insertion order; its keys are pairwise distinct. *)
Inductive value : Type :=
| PNone
| PBool (b : bool)
| PInt (z : Z)
| PFloat (f : float)
| PStr (s : string)
| PList (l : list value)
| PDict (d : list (string * value)).

(** [type(v).__name__] *)
Definition type_name (v : value) : string :=
  match v with
  | PNone => "NoneType"
  | PBool _ => "bool"
  | PInt _ => "int"
  | PFloat _ => "float"
  | PStr _ => "str"
  | PList _ => "list"
  | PDict _ => "dict"
  end.

(** Truth value of an object, as [if v:] and [v or w] test it. *)
Definition truthy (v : value) : bool :=
  match v with
  | PNone => false
  | PBool b => b
  | PInt z => negb (z =? 0)
  | PFloat f => match f with S754_zero _ => false | _ => true end
  | PStr s => negb (s =? "")%string
  | PList l => match l with [] => false | _ => true end
  | PDict d => match d with [] => false | _ => true end
  end.

(** [v or w] *)
Definition or_else (v w : value) : value := if truthy v then v else w.

(** [v is not None] *)
Definition is_not_None (v : value) : bool :=
  match v with PNone => false | _ => true end.

(** [str(n)] for an [int]. *)
Definition str_int (z : Z) : string := NilZero.string_of_int (Z.to_int z).

(** [s.upper()], on ASCII letters. *)
Definition upper_ascii (c : ascii) : ascii :=
  let n := nat_of_ascii c in
  if (97 <=? n)%nat && (n <=? 122)%nat then ascii_of_nat (n - 32) else c.

Fixpoint upper (s : string) : string :=
  match s with
  | EmptyString => EmptyString
  | String c t => String (upper_ascii c) (upper t)
  end.

(** [s.rstrip(c)] for a single character [c]. *)
Fixpoint rstrip (c : ascii) (s : string) : string :=
  match s with
  | EmptyString => EmptyString
  | String a t =>
      match rstrip c t with
      | EmptyString => if Ascii.eqb a c then EmptyString else String a EmptyString
      | t' => String a t'
      end
  end.

(** [s.startswith(p)] *)
Definition startswith (s p : string) : bool := String.prefix p s.

(** [sub in s] for two strings. *)
Fixpoint str_contains (s sub : string) : bool :=
  String.prefix sub s ||
  match s with
  | EmptyString => false
  | String _ t => str_contains t sub
  end.

(** [key in d] and [d[key]] for a [dict] with string keys. *)
Fixpoint dict_get (d : list (string * value)) (key : string) : option value :=
  match d with
  | [] => None
  | (k, v) :: d' => if (k =? key)%string then Some v else dict_get d' key
  end.

(** [x == key] where [key] is a string. *)
Definition eq_str (x : value) (key : string) : bool :=
  match x with
  | PStr s => (s =? key)%string
  | _ => false
  end.

(** Exceptions the program can meet.  [requests.exceptions.JSONDecodeError]
    (requests 2.27 and later) derives from both
    [requests.exceptions.RequestException] and [json.JSONDecodeError];
    earlier releases, and the mocks of the test suite, raise a plain
    [json.JSONDecodeError]. *)
Inductive decode_error : Type :=
| json_JSONDecodeError (msg : string)
| requests_JSONDecodeError (msg : string).

Inductive exn : Type :=
| RequestException (msg : string)
| DecodeError (d : decode_error)
| TypeError
| KeyError (key : string).

Definition isinstance_RequestException (e : exn) : bool :=
  match e with
  | RequestException _ => true
  | DecodeError (requests_JSONDecodeError _) => true
  | _ => false
  end.

Definition isinstance_json_JSONDecodeError (e : exn) : bool :=
  match e with
  | DecodeError _ => true
  | _ => false
  end.

(** [str(e)].  The program formats the exceptions of [requests] only; the
    text the interpreter gives a [TypeError] is not modelled. *)
Definition str_exn (e : exn) : string :=
  match e with
  | RequestException msg => msg
  | DecodeError (json_JSONDecodeError msg) => msg
  | DecodeError (requests_JSONDecodeError msg) => msg
  | TypeError => ""
  | KeyError key => "'" ++ key ++ "'"
  end.

(** The formatted form of an [Optional[str]] inside an f-string. *)
Definition format_optional (o : option string) : string :=
  match o with
  | Some s => s
  | None => "None"
  end.

(** A call either returns or raises. *)
Inductive result (A : Type) : Type :=
| Ok (a : A)
| Raise (e : exn).
Arguments Ok {A} a.
Arguments Raise {A} e.

(** [key in container], for a string [key]. *)
Definition contains (container : value) (key : string) : result bool :=
  match container with
  | PDict d => Ok (match dict_get d key with Some _ => true | None => false end)
  | PList l => Ok (existsb (fun x => eq_str x key) l)
  | PStr s => Ok (str_contains s key)
  | PNone | PBool _ | PInt _ | PFloat _ => Raise TypeError
  end.

(** [container[key]], for a string [key]: only a [dict] can be indexed by a
    string. *)
Definition getitem (container : value) (key : string) : result value :=
  match container with
  | PDict d => match dict_get d key with
               | Some v => Ok v
               | None => Raise (KeyError key)
               end
  | _ => Raise TypeError
  end.

End Py.
Import Py.

(** ** The environment: HTTP session, clock, remote service *)

(** What [requests] hands back: the status line, the raw text and what
    [response.json()] does. *)
Module requests.

Inductive json_outcome : Type :=
| Decoded (v : value)
| NotJSON (d : decode_error).

Record Response : Type := mkResponse {
  status_code : Z;
  text : string;
  json : json_outcome
}.

End requests.
Import requests.

(** The arguments of one [session.request] call. *)
Record Request : Type := mkRequest {
  req_method : string;
  req_url : string;
  req_headers : list (string * string);
  req_json : value;
  req_timeout : Z;
  req_verify : bool
}.

(** A request meets a response or a transport failure (DNS, refused
    connection, timeout, TLS), which [requests] raises as a
    [RequestException]. *)
Inductive net_outcome : Type :=
| Received (r : Response)
| TransportFailure (msg : string).

Record World : Type := mkWorld {
  clock : nat -> float;                     (* successive clock readings *)
  ticks : nat;                              (* readings taken so far *)
  server : nat -> Request -> net_outcome;   (* fate of the n-th request *)
  sent : list Request                       (* requests issued, oldest first *)
}.

(** State and exceptions. *)
Definition M (A : Type) : Type := World -> result A * World.

Definition ret {A} (a : A) : M A := fun w => (Ok a, w).

Definition bind {A B} (m : M A) (k : A -> M B) : M B :=
  fun w =>
    match m w with
    | (Ok a, w') => k a w'
    | (Raise e, w') => (Raise e, w')
    end.

Definition raise {A} (e : exn) : M A := fun w => (Raise e, w).

Definition lift {A} (r : result A) : M A := fun w => (r, w).

(** [try: body  except <class> as e: handler e] *)
Definition try_except {A} (body : M A) (class : exn -> bool) (handler : exn -> M A) : M A :=
  fun w =>
    match body w with
    | (Ok a, w') => (Ok a, w')
    | (Raise e, w') => if class e then handler e w' else (Raise e, w')
    end.

Notation "x <- m ;; k" := (bind m (fun x => k))
  (at level 61, m at next level, right associativity).

(** [time.time()] and [datetime.now()] *)
Definition time_time : M float :=
  fun w => (Ok (clock w (ticks w)),
            mkWorld (clock w) (S (ticks w)) (server w) (sent w)).

Definition datetime_now : M float := time_time.

(** What the next request issued in [w] meets. *)
Definition next_outcome (w : World) (req : Request) : net_outcome :=
  server w (List.length (sent w)) req.

(** [session.request(method=..., url=..., headers=..., json=..., timeout=..., verify=...)] *)
Definition session_request (req : Request) : M Response :=
  fun w =>
    let w' := mkWorld (clock w) (ticks w) (server w) (sent w ++ [req]) in
    match next_outcome w req with
    | Received r => (Ok r, w')
    | TransportFailure msg => (Raise (RequestException msg), w')
    end.

(** [session.get(url, timeout=..., verify=...)] *)
Definition session_get (url : string) (timeout : Z) (verify : bool) : M Response :=
  session_request (mkRequest "GET" url [] PNone timeout verify).

(** [response.json()] *)
Definition response_json (r : Response) : M value :=
  match json r with
  | Decoded v => ret v
  | NotJSON d => raise (DecodeError d)
  end.

(** ** Result model *)

Record APICheckResult : Type := mkAPICheckResult {
  endpoint : string;
  method : string;
  status_code : Z;
  response_time : float;
  success : bool;
  response_body : value;               (* Optional[Dict], default None *)
  error_message : option string        (* Optional[str], default None *)
}.

Record ModuleHealthStatus : Type := mkModuleHealthStatus {
  module_name : string;
  overall_status : string;
  actuator_health : value;
  api_checks : list APICheckResult;
  deployment_status : string;
  timestamp : float
}.

(** ** The checker *)

Record SpringActuatorChecker : Type := mkChecker {
  base_url : string;
  timeout : Z;
  verify_ssl : bool;
  session_headers : list (string * string)
}.

(** [SpringActuatorChecker.__init__] *)
Definition init (base_url : string) (timeout : Z) (verify_ssl : bool) : SpringActuatorChecker :=
  mkChecker (rstrip "/" base_url) timeout verify_ssl
            [("Content-Type", "application/json");
             ("User-Agent", "Spring-Actuator-Checker/1.0")].

(** The request a fixed-path probe issues. *)
Definition actuator_request (self : SpringActuatorChecker) (path : string) : Request :=
  mkRequest "GET" (base_url self ++ path) [] PNone (timeout self) (verify_ssl self).

(** [check_actuator_health] *)
Definition check_actuator_health (self : SpringActuatorChecker) : M APICheckResult :=
  let endpoint := base_url self ++ "/actuator/health" in
  start_time <- time_time ;;
  try_except
    (response <- session_get endpoint (timeout self) (verify_ssl self) ;;
     now <- time_time ;;
     let response_time := float_sub now start_time in
     let success := requests.status_code response =? 200 in
     response_body <- (if success then response_json response else ret PNone) ;;
     ret (mkAPICheckResult
            endpoint "GET" (requests.status_code response) response_time success
            response_body
            (if success then None
             else Some ("HTTP " ++ str_int (requests.status_code response) ++ ": " ++ text response))))
    isinstance_RequestException
    (fun e =>
       now <- time_time ;;
       let response_time := float_sub now start_time in
       ret (mkAPICheckResult endpoint "GET" 0 response_time false PNone (Some (str_exn e)))).

(** [check_actuator_info] *)
Definition check_actuator_info (self : SpringActuatorChecker) : M APICheckResult :=
  let endpoint := base_url self ++ "/actuator/info" in
  start_time <- time_time ;;
  try_except
    (response <- session_get endpoint (timeout self) (verify_ssl self) ;;
     now <- time_time ;;
     let response_time := float_sub now start_time in
     let success := requests.status_code response =? 200 in
     response_body <- (if success then response_json response else ret PNone) ;;
     ret (mkAPICheckResult
            endpoint "GET" (requests.status_code response) response_time success
            response_body
            (if success then None
             else Some ("HTTP " ++ str_int (requests.status_code response) ++ ": " ++ text response))))
    isinstance_RequestException
    (fun e =>
       now <- time_time ;;
       let response_time := float_sub now start_time in
       ret (mkAPICheckResult endpoint "GET" 0 response_time false PNone (Some (str_exn e)))).

(** The two fixed-path probes differ in their path only; this is their common
    body, used to reason about both at once. *)
Definition check_actuator (self : SpringActuatorChecker) (path : string) : M APICheckResult :=
  let endpoint := base_url self ++ path in
  start_time <- time_time ;;
  try_except
    (response <- session_get endpoint (timeout self) (verify_ssl self) ;;
     now <- time_time ;;
     let response_time := float_sub now start_time in
     let success := requests.status_code response =? 200 in
     response_body <- (if success then response_json response else ret PNone) ;;
     ret (mkAPICheckResult
            endpoint "GET" (requests.status_code response) response_time success
            response_body
            (if success then None
             else Some ("HTTP " ++ str_int (requests.status_code response) ++ ": " ++ text response))))
    isinstance_RequestException
    (fun e =>
       now <- time_time ;;
       let response_time := float_sub now start_time in
       ret (mkAPICheckResult endpoint "GET" 0 response_time false PNone (Some (str_exn e)))).

(** [check_custom_api]; the defaults [method="GET"] and [expected_status=200]
    are supplied by the caller. *)
Definition check_custom_api (self : SpringActuatorChecker) (endpoint : string)
    (method : string) (headers : option (list (string * string)))
    (json_data : value) (expected_status : Z) : M APICheckResult :=
  let full_url :=
    if negb (startswith endpoint "http") then base_url self ++ endpoint else endpoint in
  start_time <- time_time ;;
  let request_headers :=
    match headers with
    | Some ((_ :: _) as h) => h     (* [if headers: request_headers.update(headers)] *)
    | _ => []
    end in
  try_except
    (response <- session_request
                   (mkRequest (upper method) full_url request_headers json_data
                              (timeout self) (verify_ssl self)) ;;
     now <- time_time ;;
     let response_time := float_sub now start_time in
     let success := requests.status_code response =? expected_status in
     response_body <- try_except (response_json response)
                                 isinstance_json_JSONDecodeError
                                 (fun _ => ret PNone) ;;
     ret (mkAPICheckResult
            full_url (upper method) (requests.status_code response) response_time success
            response_body
            (if success then None
             else Some ("Expected " ++ str_int expected_status ++ ", got "
                          ++ str_int (requests.status_code response)))))
    isinstance_RequestException
    (fun e =>
       now <- time_time ;;
       let response_time := float_sub now start_time in
       ret (mkAPICheckResult full_url (upper method) 0 response_time false PNone
                             (Some (str_exn e)))).

(** The target of the general probe, [full_url] in [check_custom_api]. *)
Definition full_url (self : SpringActuatorChecker) (endpoint : string) : string :=
  if negb (startswith endpoint "http") then base_url self ++ endpoint else endpoint.

(** The headers the general probe passes on, [request_headers] in
    [check_custom_api]. *)
Definition request_headers (headers : option (list (string * string)))
  : list (string * string) :=
  match headers with
  | Some ((_ :: _) as h) => h
  | _ => []
  end.

(** The request the general probe issues. *)
Definition custom_request (self : SpringActuatorChecker) (endpoint method : string)
    (headers : option (list (string * string))) (json_data : value) : Request :=
  mkRequest (upper method) (full_url self endpoint) (request_headers headers) json_data
            (timeout self) (verify_ssl self).

(** The verdict of [check_deployment_status], from its two probe results. *)
Definition derive_deployment_status (health_result info_result : APICheckResult) : string :=
  let deployment_status := "UNKNOWN" in
  if success health_result && success info_result then "HEALTHY"
  else if success health_result then "DEGRADED"
  else "DOWN".

Definition check_deployment_status (self : SpringActuatorChecker) (module_name : string)
  : M ModuleHealthStatus :=
  health_result <- check_actuator_health self ;;
  info_result <- check_actuator_info self ;;
  let deployment_status := derive_deployment_status health_result info_result in
  now <- datetime_now ;;
  ret (mkModuleHealthStatus
         module_name
         deployment_status
         (or_else (response_body health_result) (PDict []))
         [health_result; info_result]
         deployment_status
         now).

(** ** Contract validation *)

(** The dictionary built by [validate_request_response_contract]. *)
Record ContractResult : Type := mkContractResult {
  contract_endpoint : string;
  contract_method : string;
  contract_valid : bool;
  request_validation : list (string * value);
  response_validation : list (string * value);
  errors : list string
}.

Definition rbind {A B} (r : result A) (k : A -> result B) : result B :=
  match r with
  | Ok a => k a
  | Raise e => Raise e
  end.

(** The loop over [expected_response_schema.items()], threading the
    [errors] list. *)
Fixpoint check_schema (response_body : value) (schema : list (string * string))
    (errors : list string) : result (list string) :=
  match schema with
  | [] => Ok errors
  | (key, expected_type) :: rest =>
      rbind (contains response_body key) (fun present =>
      if negb present then
        check_schema response_body rest (errors ++ ["Missing expected field: " ++ key])
      else
        rbind (getitem response_body key) (fun field =>
        let actual_type := type_name field in
        if negb (actual_type =? expected_type)%string then
          check_schema response_body rest
            (errors ++ ["Type mismatch for " ++ key ++ ": expected " ++ expected_type
                          ++ ", got " ++ actual_type])
        else check_schema response_body rest errors))
  end.

Definition validate_request_response_contract (self : SpringActuatorChecker)
    (endpoint : string) (method : string) (request_data : value)
    (expected_response_schema : option (list (string * string)))
    (headers : option (list (string * string))) : M ContractResult :=
  api_result <- check_custom_api self endpoint method headers request_data 200 ;;
  let contract_result := mkContractResult endpoint method false [] [] [] in
  if negb (success api_result) then
    ret (mkContractResult endpoint method false [] []
           (errors contract_result
              ++ ["API call failed: " ++ format_optional (error_message api_result)]))
  else
    errs <- lift (match expected_response_schema with
                  | Some ((_ :: _) as schema) =>
                      check_schema (response_body api_result) schema (errors contract_result)
                  | _ => Ok (errors contract_result)
                  end) ;;
    ret (mkContractResult endpoint method (Nat.eqb (List.length errs) 0) [] [] errs).

(** ** The three probes, uniformly *)

Inductive probe : Type :=
| Health
| Info
| Custom (endpoint method : string) (headers : option (list (string * string)))
         (json_data : value) (expected_status : Z).

Definition run_probe (self : SpringActuatorChecker) (p : probe) : M APICheckResult :=
  match p with
  | Health => check_actuator_health self
  | Info => check_actuator_info self
  | Custom endpoint method headers json_data expected_status =>
      check_custom_api self endpoint method headers json_data expected_status
  end.

Definition probe_request (self : SpringActuatorChecker) (p : probe) : Request :=
  match p with
  | Health => actuator_request self "/actuator/health"
  | Info => actuator_request self "/actuator/info"
  | Custom endpoint method headers json_data _ =>
      custom_request self endpoint method headers json_data
  end.

(** The status a probe counts as success. *)
Definition expected_status_of (p : probe) : Z :=
  match p with
  | Health | Info => 200
  | Custom _ _ _ _ expected_status => expected_status
  end.

Definition is_fixed (p : probe) : bool :=
  match p with
  | Health | Info => true
  | Custom _ _ _ _ _ => false
  end.

(** ** Sample worlds *)

Module Sample.

Definition zero : float := S754_zero false.

(** A world whose clock always reads zero and whose service answers by
    the request's URL. *)
Definition world (srv : string -> net_outcome) : World :=
  mkWorld (fun _ => zero) 0 (fun _ req => srv (req_url req)) [].

Definition checker : SpringActuatorChecker := init "https://test-app.com/" 10 false.

Definition up : value := PDict [("status", PStr "UP")].
Definition down : value := PDict [("status", PStr "DOWN")].

Definition ok_json (v : value) : net_outcome := Received (mkResponse 200 "{...}" (Decoded v)).
Definition unavailable_json (v : value) : net_outcome :=
  Received (mkResponse 503 "{...}" (Decoded v)).
Definition ok_html (d : decode_error) : net_outcome :=
  Received (mkResponse 200 "<html>Not JSON response</html>" (NotJSON d)).
Definition refused : net_outcome := TransportFailure "Connection refused".

(** The service of the end-to-end scenario: health is up, info is
    unavailable. *)
Definition degraded_world : World :=
  world (fun url =>
           if (url =? "https://test-app.com/actuator/health")%string
           then Received (mkResponse 200 "{...}" (Decoded up))
           else Received (mkResponse 503 "Service Unavailable"
                            (NotJSON (requests_JSONDecodeError "Expecting value")))).

End Sample.

(** ** Running the probes *)

Ltac unfold_probe :=
  unfold check_actuator_health, check_actuator_info, check_actuator, check_custom_api,
    session_get, bind, try_except, time_time, session_request, response_json, ret, raise,
    next_outcome;
  cbn [clock ticks server sent fst snd].

Ltac unfold_request :=
  unfold probe_request, actuator_request, custom_request, full_url, request_headers,
    next_outcome in *.

(** The world a probe leaves behind: two clock readings and one request. *)
Definition after_probe (w : World) (req : Request) : World :=
  mkWorld (clock w) (S (S (ticks w))) (server w) (sent w ++ [req]).

(** The time a probe reports. *)
Definition elapsed (w : World) : float :=
  float_sub (clock w (S (ticks w))) (clock w (ticks w)).

(** What the general probe keeps of a body: the decoded value, or [None]
    when [response.json()] raised. *)
Definition decoded_or_None (r : Response) : value :=
  match json r with
  | Decoded v => v
  | NotJSON _ => PNone
  end.

(** ** The command line *)

(** [s * n] for a string [s]. *)
Fixpoint str_repeat (s : string) (n : nat) : string :=
  match n with
  | O => EmptyString
  | S n' => s ++ str_repeat s n'
  end.

(** The line feed of ["\n"]. *)
Definition newline : string := String (ascii_of_nat 10) EmptyString.

(** [str(b)] for a [bool]. *)
Definition str_bool (b : bool) : string := if b then "True" else "False".

(** The namespace [parser.parse_args()] returns. *)
Record Args : Type := mkArgs {
  args_url : string;                    (* --url, required *)
  args_module : string;                 (* --module, required *)
  args_timeout : Z;                     (* --timeout, default 30 *)
  args_no_ssl_verify : bool;            (* --no-ssl-verify *)
  args_api_endpoint : option string;    (* --api-endpoint *)
  args_api_method : string;             (* --api-method, default "GET" *)
  args_api_data : option string;        (* --api-data *)
  args_verbose : bool                   (* --verbose *)
}.

(** How [main] ends: [sys.exit(code)], or an exception nothing catches. *)
Inductive termination : Type :=
| Exit (code : Z)
| Uncaught (e : exn).

(** What a run of [main] leaves: the strings handed to [print], in order, how
    it ended, and the world. *)
Record Run : Type := mkRun {
  printed : list string;
  ended : termination;
  final : World
}.

Section CommandLine.

(** Library functions [main] formats and parses with. *)
Variable json_loads : string -> value + string.     (* [json.loads]: a value, or the decode error *)
Variable json_dumps : value -> string.              (* [json.dumps(v, indent=2)] *)
Variable format_2f : float -> string.               (* [f"{x:.2f}"] *)
Variable str_datetime : float -> string.            (* [str] of a [datetime] *)

(** The first lines of [main]: [json_data] from [--api-data], or the decode
    error that ends the run. *)
Definition parse_api_data (args : Args) : value + string :=
  match args_api_data args with
  | Some ((String _ _) as data) => json_loads data
  | _ => inl PNone
  end.

(** The report [main] prints for the deployment check. *)
Definition print_module_status (module_status : ModuleHealthStatus) : list string :=
  [ newline ++ str_repeat "=" 60;
    "DEPLOYMENT STATUS CHECK RESULTS";
    str_repeat "=" 60;
    "Module: " ++ module_name module_status;
    "Overall Status: " ++ overall_status module_status;
    "Deployment Status: " ++ deployment_status module_status;
    "Timestamp: " ++ str_datetime (timestamp module_status);
    newline ++ "Actuator Health Details:";
    json_dumps (actuator_health module_status) ].

(** The heading [main] prints before the additional check. *)
Definition print_api_heading : list string :=
  [ newline ++ str_repeat "-" 40;
    "ADDITIONAL API CHECK";
    str_repeat "-" 40 ].

(** The report [main] prints for the additional check. *)
Definition print_api_result (api_result : APICheckResult) : list string :=
  [ "Endpoint: " ++ endpoint api_result;
    "Method: " ++ method api_result;
    "Status Code: " ++ str_int (status_code api_result);
    "Response Time: " ++ format_2f (response_time api_result) ++ "s";
    "Success: " ++ str_bool (success api_result) ]
  ++ (if truthy (response_body api_result)
      then ["Response Body: " ++ json_dumps (response_body api_result)]
      else [])
  ++ (match error_message api_result with
      | Some ((String _ _) as message) => ["Error: " ++ message]
      | _ => []
      end).

(** [main], from the parsed arguments on. *)
Definition main (args : Args) (w : World) : Run :=
  match parse_api_data args with
  | inr _ => mkRun [] (Exit 1) w
  | inl json_data =>
      let checker :=
        init (args_url args) (args_timeout args) (negb (args_no_ssl_verify args)) in
      match check_deployment_status checker (args_module args) w with
      | (Raise e, w1) => mkRun [] (Uncaught e) w1
      | (Ok module_status, w1) =>
          let out := print_module_status module_status in
          let exit_code :=
            if (deployment_status module_status =? "HEALTHY")%string then 0 else 1 in
          match args_api_endpoint args with
          | Some ((String _ _) as api_endpoint) =>
              match check_custom_api checker api_endpoint (args_api_method args)
                      None json_data 200 w1 with
              | (Raise e, w2) => mkRun (out ++ print_api_heading) (Uncaught e) w2
              | (Ok api_result, w2) =>
                  mkRun (out ++ print_api_heading ++ print_api_result api_result
                           ++ [newline ++ str_repeat "=" 60])
                        (Exit exit_code) w2
              end
          | _ => mkRun (out ++ [newline ++ str_repeat "=" 60]) (Exit exit_code) w1
          end
      end
  end.

End CommandLine.

(** ** Schema entries, one at a time *)

(** What one pass of the schema loop adds to [errors] when the body is a
    [dict]. *)
Definition field_errors (d : list (string * value)) (entry : string * string)
  : list string :=
  let (key, expected_type) := entry in
  match dict_get d key with
  | None => ["Missing expected field: " ++ key]
  | Some field =>
      if (type_name field =? expected_type)%string then []
      else ["Type mismatch for " ++ key ++ ": expected " ++ expected_type
              ++ ", got " ++ type_name field]
  end.

(** The entries of a schema, none when the schema is absent. *)
Definition schema_entries (expected_response_schema : option (list (string * string)))
  : list (string * string) :=
  match expected_response_schema with
  | Some schema => schema
  | None => []
  end.

(** ** Answers of the service, classified *)

(** A fixed-path probe succeeds on exactly these answers: status 200 with a
    body that decodes. *)
Definition healthy_answer (o : net_outcome) : bool :=
  match o with
  | Received r =>
      (requests.status_code r =? 200) &&
      match json r with Decoded _ => true | NotJSON _ => false end
  | TransportFailure _ => false
  end.

(** The answers on which a fixed-path probe lets an exception out: status 200
    with a body whose decode error is a plain [json.JSONDecodeError]. *)
Definition escaping_answer (o : net_outcome) : option string :=
  match o with
  | Received r =>
      if requests.status_code r =? 200 then
        match json r with
        | NotJSON (json_JSONDecodeError msg) => Some msg
        | _ => None
        end
      else None
  | TransportFailure _ => None
  end.

(** What the request after the next one meets. *)
Definition second_outcome (w : World) (req : Request) : net_outcome :=
  server w (S (List.length (sent w))) req.

Lemma check_actuator_health_eq (self : SpringActuatorChecker) :
  check_actuator_health self = check_actuator self "/actuator/health".
Proof. reflexivity. Qed.

Lemma check_actuator_info_eq (self : SpringActuatorChecker) :
  check_actuator_info self = check_actuator self "/actuator/info".
Proof. reflexivity. Qed.

Section FixedProbe.

Variable self : SpringActuatorChecker.
Variable path : string.
Variable w : World.

Let req := actuator_request self path.
Let url := base_url self ++ path.

Lemma check_actuator_transport_failure (msg : string) :
  next_outcome w req = TransportFailure msg ->
  check_actuator self path w =
    (Ok (mkAPICheckResult url "GET" 0 (elapsed w) false PNone (Some msg)),
     after_probe w req).
Proof.
  subst req url. unfold_request. intros H. unfold_probe. rewrite H. reflexivity.
Qed.

Lemma check_actuator_not_200 (r : Response) :
  next_outcome w req = Received r ->
  requests.status_code r <> 200 ->
  check_actuator self path w =
    (Ok (mkAPICheckResult url "GET" (requests.status_code r) (elapsed w) false PNone
           (Some ("HTTP " ++ str_int (requests.status_code r) ++ ": " ++ text r))),
     after_probe w req).
Proof.
  subst req url. unfold_request. intros H Hne. unfold_probe. rewrite H.
  apply Z.eqb_neq in Hne. rewrite Hne. reflexivity.
Qed.

Lemma check_actuator_200_json (r : Response) (v : value) :
  next_outcome w req = Received r ->
  requests.status_code r = 200 ->
  json r = Decoded v ->
  check_actuator self path w =
    (Ok (mkAPICheckResult url "GET" 200 (elapsed w) true v None), after_probe w req).
Proof.
  subst req url. unfold_request. intros H H200 Hj. unfold_probe. rewrite H.
  rewrite H200, Hj. reflexivity.
Qed.

(** An unguarded [response.json()] on a 200 whose body is not JSON: with
    requests 2.27 or later the decode error is a [RequestException] and the
    probe reports a transport failure. *)
Lemma check_actuator_200_not_json_caught (r : Response) (msg : string) :
  next_outcome w req = Received r ->
  requests.status_code r = 200 ->
  json r = NotJSON (requests_JSONDecodeError msg) ->
  check_actuator self path w =
    (Ok (mkAPICheckResult url "GET" 0
           (float_sub (clock w (S (S (ticks w)))) (clock w (ticks w)))
           false PNone (Some msg)),
     mkWorld (clock w) (S (S (S (ticks w)))) (server w) (sent w ++ [req])).
Proof.
  subst req url. unfold_request. intros H H200 Hj. unfold_probe. rewrite H.
  rewrite H200, Hj. reflexivity.
Qed.

(** With a plain [json.JSONDecodeError] nothing catches it. *)
Lemma check_actuator_200_not_json_raised (r : Response) (msg : string) :
  next_outcome w req = Received r ->
  requests.status_code r = 200 ->
  json r = NotJSON (json_JSONDecodeError msg) ->
  check_actuator self path w =
    (Raise (DecodeError (json_JSONDecodeError msg)), after_probe w req).
Proof.
  subst req url. unfold_request. intros H H200 Hj. unfold_probe. rewrite H.
  rewrite H200, Hj. reflexivity.
Qed.

End FixedProbe.

Section CustomProbe.

Variable self : SpringActuatorChecker.
Variables endpoint method : string.
Variable headers : option (list (string * string)).
Variable json_data : value.
Variable expected_status : Z.
Variable w : World.

Let req := custom_request self endpoint method headers json_data.

Lemma check_custom_api_transport_failure (msg : string) :
  next_outcome w req = TransportFailure msg ->
  check_custom_api self endpoint method headers json_data expected_status w =
    (Ok (mkAPICheckResult (full_url self endpoint) (upper method) 0 (elapsed w)
           false PNone (Some msg)),
     after_probe w req).
Proof.
  subst req. unfold_request. intros H. unfold_probe. unfold custom_request.
  rewrite H. reflexivity.
Qed.

Lemma check_custom_api_received (r : Response) :
  next_outcome w req = Received r ->
  check_custom_api self endpoint method headers json_data expected_status w =
    (Ok (mkAPICheckResult (full_url self endpoint) (upper method) (requests.status_code r)
           (elapsed w) (requests.status_code r =? expected_status) (decoded_or_None r)
           (if requests.status_code r =? expected_status then None
            else Some ("Expected " ++ str_int expected_status ++ ", got "
                         ++ str_int (requests.status_code r)))),
     after_probe w req).
Proof.
  subst req. unfold_request. intros H. unfold_probe. unfold custom_request.
  rewrite H. unfold decoded_or_None.
  destruct (json r) as [v | d]; [reflexivity | destruct d; reflexivity].
Qed.

(** The general probe never raises. *)
Lemma check_custom_api_returns :
  exists res,
    check_custom_api self endpoint method headers json_data expected_status w =
      (Ok res, after_probe w req).
Proof.
  destruct (next_outcome w req) as [r | msg] eqn:H.
  - eexists. apply check_custom_api_received. exact H.
  - eexists. apply check_custom_api_transport_failure. exact H.
Qed.

End CustomProbe.

(** ** Deployment aggregation *)

Lemma check_deployment_status_run (self : SpringActuatorChecker) (module_name : string)
    (w w1 w2 : World) (health_result info_result : APICheckResult) :
  check_actuator_health self w = (Ok health_result, w1) ->
  check_actuator_info self w1 = (Ok info_result, w2) ->
  check_deployment_status self module_name w =
    (Ok (mkModuleHealthStatus module_name
           (derive_deployment_status health_result info_result)
           (or_else (response_body health_result) (PDict []))
           [health_result; info_result]
           (derive_deployment_status health_result info_result)
           (clock w2 (ticks w2))),
     mkWorld (clock w2) (S (ticks w2)) (server w2) (sent w2)).
Proof.
  intros Hh Hi. unfold check_deployment_status, bind. rewrite Hh, Hi. reflexivity.
Qed.

Lemma derive_deployment_status_cases (h i : APICheckResult) :
  derive_deployment_status h i =
    if success h then if success i then "HEALTHY" else "DEGRADED" else "DOWN".
Proof.
  unfold derive_deployment_status. destruct (success h), (success i); reflexivity.
Qed.

(** C1: whatever the two probes return, the verdict of
    [check_deployment_status] is HEALTHY when both succeeded, DEGRADED when
    only the health probe succeeded, and DOWN when the health probe failed,
    whatever the info probe did. *)
Theorem deployment_status_truth_table :
  forall (self : SpringActuatorChecker) (module_name : string) (w w1 w2 : World)
         (health_result info_result : APICheckResult),
    check_actuator_health self w = (Ok health_result, w1) ->
    check_actuator_info self w1 = (Ok info_result, w2) ->
    exists status w3,
      check_deployment_status self module_name w = (Ok status, w3) /\
      api_checks status = [health_result; info_result] /\
      deployment_status status =
        (if success health_result
         then if success info_result then "HEALTHY" else "DEGRADED"
         else "DOWN").
Proof.
  intros self module_name w w1 w2 h i Hh Hi.
  do 2 eexists. split.
  - apply (check_deployment_status_run self module_name w w1 w2 h i Hh Hi).
  - split; [reflexivity | apply derive_deployment_status_cases].
Qed.

Lemma deployment_status_truth_table_witness :
  exists health_result w1 info_result w2,
    check_actuator_health Sample.checker Sample.degraded_world = (Ok health_result, w1) /\
    check_actuator_info Sample.checker w1 = (Ok info_result, w2) /\
    exists status w3,
      check_deployment_status Sample.checker "m" Sample.degraded_world = (Ok status, w3) /\
      api_checks status = [health_result; info_result] /\
      deployment_status status = "DEGRADED".
Proof.
  do 4 eexists. split; [reflexivity |]. split; [reflexivity |].
  eapply (deployment_status_truth_table Sample.checker "m" Sample.degraded_world);
    reflexivity.
Defined.

(** C9: whatever the two probes return, [check_deployment_status] returns a
    status whose [overall_status] and [deployment_status] agree and are one of
    HEALTHY, DEGRADED, DOWN; the initial UNKNOWN never shows. *)
Theorem unknown_is_never_returned :
  forall (self : SpringActuatorChecker) (module_name : string) (w w1 w2 : World)
         (health_result info_result : APICheckResult),
    check_actuator_health self w = (Ok health_result, w1) ->
    check_actuator_info self w1 = (Ok info_result, w2) ->
    exists status w3,
      check_deployment_status self module_name w = (Ok status, w3) /\
      overall_status status = deployment_status status /\
      In (deployment_status status) ["HEALTHY"; "DEGRADED"; "DOWN"] /\
      deployment_status status <> "UNKNOWN".
Proof.
  intros self module_name w w1 w2 h i Hh Hi.
  do 2 eexists. split.
  - apply (check_deployment_status_run self module_name w w1 w2 h i Hh Hi).
  - cbn [overall_status deployment_status]. rewrite derive_deployment_status_cases.
    split; [reflexivity |].
    destruct (success h), (success i); cbn [In]; split; auto; discriminate.
Qed.

Lemma unknown_is_never_returned_witness :
  exists status w3,
    check_deployment_status Sample.checker "m" Sample.degraded_world = (Ok status, w3) /\
    overall_status status = deployment_status status /\
    In (deployment_status status) ["HEALTHY"; "DEGRADED"; "DOWN"] /\
    deployment_status status <> "UNKNOWN".
Proof.
  eapply (unknown_is_never_returned Sample.checker "m" Sample.degraded_world);
    reflexivity.
Defined.

(** ** Response bodies *)

Lemma run_probe_fixed (self : SpringActuatorChecker) (p : probe) :
  is_fixed p = true ->
  exists path,
    run_probe self p = check_actuator self path /\
    probe_request self p = actuator_request self path.
Proof.
  destruct p; cbn [is_fixed run_probe probe_request]; intros H; try discriminate.
  - exists "/actuator/health". split; [apply check_actuator_health_eq | reflexivity].
  - exists "/actuator/info". split; [apply check_actuator_info_eq | reflexivity].
Qed.

(** The general probe keeps a body exactly when it decodes to something
    other than [None]. *)
Lemma decoded_or_None_present (r : Response) :
  is_not_None (decoded_or_None r) = true <->
  exists v, json r = Decoded v /\ v <> PNone.
Proof.
  unfold decoded_or_None. destruct (json r) as [v | d]; split.
  - intros H. exists v. split; [reflexivity |]. intros ->. discriminate.
  - intros [v' [E Hv]]. injection E as <-. destruct v; try reflexivity. congruence.
  - discriminate.
  - intros [v' [E _]]. discriminate.
Qed.

(** C3, the claim as stated, refuted: the health probe drops the decodable body
    of a 503 answer. *)
Lemma failed_health_check_drops_decodable_body :
  ~ (forall (self : SpringActuatorChecker) (p : probe) (w w' : World)
            (r : Response) (res : APICheckResult),
        next_outcome w (probe_request self p) = Received r ->
        run_probe self p w = (Ok res, w') ->
        (is_not_None (response_body res) = true <-> exists v, json r = Decoded v)).
Proof.
  intros H.
  pose proof (H Sample.checker Health
                (Sample.world (fun _ => Sample.unavailable_json Sample.down))
                _ _ _ eq_refl eq_refl) as [_ Hback].
  cbn in Hback. discriminate Hback. exists Sample.down. reflexivity.
Qed.

(** C3, amended: when a response is received, the general probe returns the
    value the body decodes to, or [None] when it does not decode, whether or
    not the status is the expected one; the fixed-path probes return [None]
    for every answer other than 200, and the decoded value for a 200 whose
    body decodes. *)
Theorem response_body_by_probe_variant :
  forall (self : SpringActuatorChecker) (p : probe) (w : World) (r : Response),
    next_outcome w (probe_request self p) = Received r ->
    (is_fixed p = true -> requests.status_code r = 200 -> exists v, json r = Decoded v) ->
    exists res w',
      run_probe self p w = (Ok res, w') /\
      success res = (requests.status_code r =? expected_status_of p) /\
      response_body res =
        (if is_fixed p && negb (requests.status_code r =? 200) then PNone
         else decoded_or_None r).
Proof.
  intros self p w r Hr Hdec.
  destruct (is_fixed p) eqn:Hp.
  - destruct (run_probe_fixed self p Hp) as [path [Hrun Hreq]].
    rewrite Hrun. rewrite Hreq in Hr.
    assert (Hexp : expected_status_of p = 200) by (destruct p; [reflexivity .. | discriminate]).
    rewrite Hexp.
    destruct (Z.eq_dec (requests.status_code r) 200) as [E | E].
    + destruct (Hdec eq_refl E) as [v Hv].
      do 2 eexists. split.
      * apply (check_actuator_200_json self path w r v Hr E Hv).
      * cbn. rewrite E. cbn. unfold decoded_or_None. rewrite Hv. split; reflexivity.
    + do 2 eexists. split.
      * apply (check_actuator_not_200 self path w r Hr E).
      * cbn. apply Z.eqb_neq in E. rewrite E. split; reflexivity.
  - destruct p as [| | ep m hd jd ex]; try discriminate. cbn in *.
    do 2 eexists. split.
    + apply (check_custom_api_received self ep m hd jd ex w r Hr).
    + cbn. split; reflexivity.
Qed.

Lemma response_body_by_probe_variant_witness :
  exists res w',
    run_probe Sample.checker (Custom "/api/users" "get" None PNone 200)
      (Sample.world (fun _ => Sample.unavailable_json Sample.down)) = (Ok res, w') /\
    success res = false /\
    response_body res = Sample.down.
Proof.
  apply (response_body_by_probe_variant Sample.checker
           (Custom "/api/users" "get" None PNone 200)
           (Sample.world (fun _ => Sample.unavailable_json Sample.down))
           (mkResponse 503 "{...}" (Decoded Sample.down))).
  - reflexivity.
  - cbn. discriminate.
Defined.

(** The general probe treats a body that is not JSON as no body at all. *)
Lemma check_custom_api_non_json_response (self : SpringActuatorChecker)
    (endpoint method : string) (headers : option (list (string * string)))
    (json_data : value) (expected_status : Z) (w : World) (r : Response)
    (d : decode_error) :
  next_outcome w (custom_request self endpoint method headers json_data) = Received r ->
  requests.status_code r = expected_status ->
  json r = NotJSON d ->
  exists res w',
    check_custom_api self endpoint method headers json_data expected_status w = (Ok res, w') /\
    success res = true /\ response_body res = PNone /\ error_message res = None.
Proof.
  intros Hr Hs Hj. do 2 eexists. split.
  - apply (check_custom_api_received self endpoint method headers json_data
             expected_status w r Hr).
  - cbn. unfold decoded_or_None. rewrite Hj. apply Z.eqb_eq in Hs. rewrite Hs.
    repeat split.
Qed.

(** C4, on the fixed-path probes: a 200 answer whose body is not JSON makes
    the unguarded [response.json()] raise.  A plain [json.JSONDecodeError]
    leaves the probe as an exception; the decode error of requests 2.27 and
    later is caught as a transport failure, with status 0 and no success. *)
Theorem health_check_on_non_json_200 :
  fst (check_actuator_health Sample.checker
         (Sample.world (fun _ => Sample.ok_html (json_JSONDecodeError "Expecting value"))))
  = Raise (DecodeError (json_JSONDecodeError "Expecting value"))
  /\
  fst (check_actuator_health Sample.checker
         (Sample.world (fun _ => Sample.ok_html (requests_JSONDecodeError "Expecting value"))))
  = Ok (mkAPICheckResult "https://test-app.com/actuator/health" "GET" 0
          (float_sub Sample.zero Sample.zero) false PNone (Some "Expecting value")).
Proof.
  split; reflexivity.
Qed.

(** ** Error messages *)

Lemma message_shapes_differ (e a c t : string) :
  "Expected " ++ e ++ ", got " ++ a <> "HTTP " ++ c ++ ": " ++ t.
Proof. cbn. discriminate. Qed.

(** C6: a received answer whose status is not the expected one gives the
    fixed-path probes the message "HTTP <code>: <raw text>" and the general
    probe the message "Expected <expected>, got <actual>"; no message of one
    shape is a message of the other. *)
Theorem error_message_shapes :
  forall (self : SpringActuatorChecker) (p : probe) (w : World) (r : Response),
    next_outcome w (probe_request self p) = Received r ->
    requests.status_code r <> expected_status_of p ->
    (exists res w',
       run_probe self p w = (Ok res, w') /\
       success res = false /\
       error_message res =
         Some (match p with
               | Custom _ _ _ _ expected_status =>
                   "Expected " ++ str_int expected_status ++ ", got "
                     ++ str_int (requests.status_code r)
               | _ => "HTTP " ++ str_int (requests.status_code r) ++ ": " ++ text r
               end)) /\
    (forall e a c t : string,
       "Expected " ++ e ++ ", got " ++ a <> "HTTP " ++ c ++ ": " ++ t).
Proof.
  intros self p w r Hr Hne. split; [| exact message_shapes_differ].
  destruct p as [| | ep m hd jd ex];
    cbn [run_probe probe_request expected_status_of] in *.
  - rewrite check_actuator_health_eq. do 2 eexists. split.
    + apply (check_actuator_not_200 self "/actuator/health" w r Hr Hne).
    + split; reflexivity.
  - rewrite check_actuator_info_eq. do 2 eexists. split.
    + apply (check_actuator_not_200 self "/actuator/info" w r Hr Hne).
    + split; reflexivity.
  - do 2 eexists. split.
    + apply (check_custom_api_received self ep m hd jd ex w r Hr).
    + cbn. apply Z.eqb_neq in Hne. rewrite Hne. split; reflexivity.
Qed.

Lemma error_message_shapes_witness :
  (exists res w',
     run_probe Sample.checker Info Sample.degraded_world = (Ok res, w') /\
     success res = false /\
     error_message res = Some "HTTP 503: Service Unavailable") /\
  (forall e a c t : string,
     "Expected " ++ e ++ ", got " ++ a <> "HTTP " ++ c ++ ": " ++ t).
Proof.
  apply (error_message_shapes Sample.checker Info Sample.degraded_world
           (mkResponse 503 "Service Unavailable"
              (NotJSON (requests_JSONDecodeError "Expecting value")))).
  - reflexivity.
  - cbn. discriminate.
Defined.

(** C7, the claim as stated, refuted: a health probe that receives a 503 with
    a decodable body does set its error message. *)
Lemma failed_health_check_sets_error_message :
  ~ (forall (self : SpringActuatorChecker) (p : probe) (w w' : World)
            (r : Response) (v : value) (res : APICheckResult),
        is_fixed p = true ->
        next_outcome w (probe_request self p) = Received r ->
        json r = Decoded v ->
        run_probe self p w = (Ok res, w') ->
        success res = false ->
        error_message res = None).
Proof.
  intros H.
  pose proof (H Sample.checker Health
                (Sample.world (fun _ => Sample.unavailable_json Sample.down))
                _ _ _ _ eq_refl eq_refl eq_refl eq_refl eq_refl) as Hnone.
  cbn in Hnone. discriminate Hnone.
Qed.

(** C7, amended: when a response is received and its body decodes as JSON, a
    probe returns, and when it did not succeed the fixed-path probes set the
    error message to "HTTP <code>: <raw text>" and the general probe sets it
    to "Expected <expected>, got <actual>"; the message is unset on success
    only. *)
Theorem error_message_on_decodable_failure :
  forall (self : SpringActuatorChecker) (p : probe) (w : World)
         (r : Response) (v : value),
    next_outcome w (probe_request self p) = Received r ->
    json r = Decoded v ->
    exists res w',
      run_probe self p w = (Ok res, w') /\
      error_message res =
        if success res then None
        else Some (if is_fixed p
                   then "HTTP " ++ str_int (requests.status_code r) ++ ": " ++ text r
                   else "Expected " ++ str_int (expected_status_of p) ++ ", got "
                          ++ str_int (requests.status_code r)).
Proof.
  intros self p w r v Hr Hv.
  destruct (is_fixed p) eqn:Hp.
  - destruct (run_probe_fixed self p Hp) as [path [Hrun Hreq]].
    rewrite Hrun. rewrite Hreq in Hr.
    destruct (Z.eq_dec (requests.status_code r) 200) as [E | E].
    + do 2 eexists. split.
      * apply (check_actuator_200_json self path w r v Hr E Hv).
      * reflexivity.
    + do 2 eexists. split.
      * apply (check_actuator_not_200 self path w r Hr E).
      * reflexivity.
  - destruct p as [| | ep m hd jd ex]; try discriminate.
    cbn [run_probe probe_request expected_status_of] in *.
    do 2 eexists. split.
    + apply (check_custom_api_received self ep m hd jd ex w r Hr).
    + reflexivity.
Qed.

Lemma error_message_on_decodable_failure_witness :
  exists res w',
    run_probe Sample.checker Health
      (Sample.world (fun _ => Sample.unavailable_json Sample.down)) = (Ok res, w') /\
    error_message res = if success res then None else Some "HTTP 503: {...}".
Proof.
  apply (error_message_on_decodable_failure Sample.checker Health
           (Sample.world (fun _ => Sample.unavailable_json Sample.down))
           (mkResponse 503 "{...}" (Decoded Sample.down)) Sample.down);
    reflexivity.
Defined.

(** ** Success and status *)

(** C8, the claim as stated, refuted: a caller that expects status 0 and meets
    a transport failure gets the sentinel status 0 and no success. *)
Lemma transport_failure_with_expected_status_zero :
  ~ (forall (self : SpringActuatorChecker) (p : probe) (w w' : World)
            (res : APICheckResult),
        run_probe self p w = (Ok res, w') ->
        success res = (status_code res =? expected_status_of p)).
Proof.
  intros H.
  pose proof (H Sample.checker (Custom "/api/users" "GET" None PNone 0)
                (Sample.world (fun _ => Sample.refused)) _ _ eq_refl) as Heq.
  cbn in Heq. discriminate Heq.
Qed.

(** C8, amended: when a response is received, or when the expected status is
    not 0, the result a probe returns has [success] equal to the comparison of
    its status code with the expected status. *)
Theorem success_iff_status_is_expected :
  forall (self : SpringActuatorChecker) (p : probe) (w w' : World) (res : APICheckResult),
    run_probe self p w = (Ok res, w') ->
    (expected_status_of p <> 0 \/
     exists r, next_outcome w (probe_request self p) = Received r) ->
    success res = (status_code res =? expected_status_of p).
Proof.
  intros self p w w' res H Hexp.
  destruct (is_fixed p) eqn:Hp.
  - destruct (run_probe_fixed self p Hp) as [path [Hrun Hreq]].
    assert (H200 : expected_status_of p = 200)
      by (destruct p; [reflexivity .. | discriminate]).
    rewrite Hrun in H. rewrite H200. clear Hexp Hreq.
    destruct (next_outcome w (actuator_request self path)) as [r | msg] eqn:Hr.
    + destruct (Z.eq_dec (requests.status_code r) 200) as [E | E].
      * destruct (json r) as [v | [msg | msg]] eqn:Hj.
        -- rewrite (check_actuator_200_json self path w r v Hr E Hj) in H.
           injection H as <- _. reflexivity.
        -- rewrite (check_actuator_200_not_json_raised self path w r msg Hr E Hj) in H.
           discriminate H.
        -- rewrite (check_actuator_200_not_json_caught self path w r msg Hr E Hj) in H.
           injection H as <- _. reflexivity.
      * rewrite (check_actuator_not_200 self path w r Hr E) in H.
        injection H as <- _. cbn [success status_code].
        symmetry. apply Z.eqb_neq. exact E.
    + rewrite (check_actuator_transport_failure self path w msg Hr) in H.
      injection H as <- _. reflexivity.
  - destruct p as [| | ep m hd jd ex]; try discriminate.
    cbn [run_probe probe_request expected_status_of] in *.
    destruct (next_outcome w (custom_request self ep m hd jd)) as [r | msg] eqn:Hr.
    + rewrite (check_custom_api_received self ep m hd jd ex w r Hr) in H.
      injection H as <- _. reflexivity.
    + rewrite (check_custom_api_transport_failure self ep m hd jd ex w msg Hr) in H.
      injection H as <- _. cbn [success status_code].
      destruct Hexp as [Hne | [r Hrec]]; [| discriminate Hrec].
      symmetry. apply Z.eqb_neq. congruence.
Qed.

Lemma success_iff_status_is_expected_witness :
  exists res w',
    run_probe Sample.checker (Custom "/api/users" "POST" None PNone 201)
      (Sample.world (fun _ => Sample.refused)) = (Ok res, w') /\
    201 <> 0 /\
    success res = (status_code res =? 201).
Proof.
  assert (Hne : 201 <> 0) by discriminate.
  do 2 eexists. split; [cbv; reflexivity |]. split; [exact Hne |].
  eapply (success_iff_status_is_expected Sample.checker
            (Custom "/api/users" "POST" None PNone 201)
            (Sample.world (fun _ => Sample.refused))).
  - cbv; reflexivity.
  - left. exact Hne.
Defined.

(** ** Target of the general probe *)

Lemma startswith_iff (s p : string) :
  startswith s p = true <-> exists rest, s = p ++ rest.
Proof.
  unfold startswith. revert s.
  induction p as [| a p IH]; intros s.
  - destruct s; cbn; split; eauto.
  - destruct s as [| b s]; cbn.
    + split; [discriminate | intros [rest H]; discriminate H].
    + destruct (ascii_dec a b) as [-> | Hab].
      * rewrite IH. split; intros [rest H]; exists rest.
        -- rewrite H. reflexivity.
        -- injection H as H. exact H.
      * split; [discriminate |].
        intros [rest H]. injection H as Hba _. congruence.
Qed.

Example relative_looking_endpoint_is_kept :
  full_url Sample.checker "httpdocs/x" = "httpdocs/x" /\
  full_url Sample.checker "/api/users" = "https://test-app.com/api/users" /\
  full_url Sample.checker "api/users" = "https://test-app.comapi/users".
Proof. repeat split. Qed.

(** C10: the general probe contacts, and reports as its endpoint, the
    endpoint itself when this begins with the four characters "http"
    (whatever follows them), and otherwise the base URL immediately followed
    by the endpoint. *)
Theorem general_probe_target :
  forall (self : SpringActuatorChecker) (ep method : string)
         (headers : option (list (string * string))) (json_data : value)
         (expected_status : Z) (w : World),
    exists res w' req,
      check_custom_api self ep method headers json_data expected_status w = (Ok res, w') /\
      sent w' = (sent w ++ [req])%list /\
      req_url req = endpoint res /\
      (((exists rest, ep = "http" ++ rest) /\ endpoint res = ep) \/
       ((~ exists rest, ep = "http" ++ rest) /\ endpoint res = base_url self ++ ep)).
Proof.
  intros self ep method headers json_data expected_status w.
  assert (Hurl : ((exists rest, ep = "http" ++ rest) /\ full_url self ep = ep) \/
                 ((~ exists rest, ep = "http" ++ rest) /\
                  full_url self ep = base_url self ++ ep)).
  { unfold full_url. destruct (startswith ep "http") eqn:Hs.
    - left. split; [apply startswith_iff; exact Hs | reflexivity].
    - right. split; [| reflexivity].
      intros Hex. apply startswith_iff in Hex. congruence. }
  destruct (next_outcome w (custom_request self ep method headers json_data))
    as [r | msg] eqn:Hr.
  - do 3 eexists. split.
    + apply (check_custom_api_received self ep method headers json_data
               expected_status w r Hr).
    + repeat split. exact Hurl.
  - do 3 eexists. split.
    + apply (check_custom_api_transport_failure self ep method headers json_data
               expected_status w msg Hr).
    + repeat split. exact Hurl.
Qed.

(** ** Contract validation *)

(** A failed general probe always carries a message. *)
Lemma failed_custom_check_has_message (self : SpringActuatorChecker)
    (ep method : string) (headers : option (list (string * string)))
    (json_data : value) (expected_status : Z) (w w' : World) (res : APICheckResult) :
  check_custom_api self ep method headers json_data expected_status w = (Ok res, w') ->
  success res = false ->
  exists message, error_message res = Some message.
Proof.
  intros Hrun Hfail.
  destruct (next_outcome w (custom_request self ep method headers json_data))
    as [r | msg] eqn:Hr.
  - rewrite (check_custom_api_received self ep method headers json_data
               expected_status w r Hr) in Hrun.
    injection Hrun as <- _. cbn in *. rewrite Hfail. eauto.
  - rewrite (check_custom_api_transport_failure self ep method headers json_data
               expected_status w msg Hr) in Hrun.
    injection Hrun as <- _. cbn. eauto.
Qed.

(** C5: when the probe of the validator does not succeed, the report is
    invalid, its errors are the single string "API call failed: " followed by
    the probe's error message, and the schema plays no part. *)
Theorem contract_short_circuits_on_probe_failure :
  forall (self : SpringActuatorChecker) (ep method : string) (request_data : value)
         (expected_response_schema : option (list (string * string)))
         (headers : option (list (string * string)))
         (w w' : World) (api_result : APICheckResult),
    check_custom_api self ep method headers request_data 200 w = (Ok api_result, w') ->
    success api_result = false ->
    exists message,
      error_message api_result = Some message /\
      validate_request_response_contract self ep method request_data
        expected_response_schema headers w =
        (Ok (mkContractResult ep method false [] [] ["API call failed: " ++ message]), w').
Proof.
  intros self ep method request_data schema headers w w' api_result Hrun Hfail.
  destruct (failed_custom_check_has_message _ _ _ _ _ _ _ _ _ Hrun Hfail)
    as [message Hmsg].
  exists message. split; [exact Hmsg |].
  unfold validate_request_response_contract, bind.
  rewrite Hrun, Hfail. cbn. rewrite Hmsg. reflexivity.
Qed.

Lemma contract_short_circuits_on_probe_failure_witness :
  exists api_result w',
    check_custom_api Sample.checker "/api/test" "GET" None PNone 200
      (Sample.world (fun _ => Sample.unavailable_json Sample.down)) = (Ok api_result, w') /\
    success api_result = false /\
    exists message,
      error_message api_result = Some message /\
      validate_request_response_contract Sample.checker "/api/test" "GET" PNone
        (Some [("users", "list"); ("totalCount", "int")]) None
        (Sample.world (fun _ => Sample.unavailable_json Sample.down)) =
        (Ok (mkContractResult "/api/test" "GET" false [] []
               ["API call failed: " ++ message]), w').
Proof.
  do 2 eexists. split; [cbv; reflexivity |]. split; [reflexivity |].
  apply (contract_short_circuits_on_probe_failure Sample.checker "/api/test" "GET" PNone
           (Some [("users", "list"); ("totalCount", "int")]) None
           (Sample.world (fun _ => Sample.unavailable_json Sample.down)));
    reflexivity.
Defined.

(** Against a [dict] the loop over the schema never raises, and only adds
    to the errors. *)
Lemma check_schema_dict (d : list (string * value)) (schema : list (string * string)) :
  forall errs, exists more, check_schema (PDict d) schema errs = Ok (errs ++ more)%list.
Proof.
  induction schema as [| [key expected_type] rest IH]; intros errs.
  - exists []. cbn. rewrite app_nil_r. reflexivity.
  - cbn [check_schema contains getitem rbind].
    destruct (dict_get d key) as [field |]; cbn [negb rbind].
    + destruct (type_name field =? expected_type)%string; cbn [negb].
      * apply IH.
      * destruct (IH (app errs ["Type mismatch for " ++ key ++ ": expected "
                                  ++ expected_type ++ ", got " ++ type_name field]))
          as [more Hmore].
        rewrite Hmore. rewrite <- app_assoc. eauto.
    + destruct (IH (app errs ["Missing expected field: " ++ key])) as [more Hmore].
      rewrite Hmore. rewrite <- app_assoc. eauto.
Qed.

(** When the probe succeeds and the body is a JSON object, the validator
    returns a report, valid exactly when it lists no error. *)
Lemma validate_contract_on_dict (self : SpringActuatorChecker) (ep method : string)
    (request_data : value) (expected_response_schema : option (list (string * string)))
    (headers : option (list (string * string))) (w : World) (r : Response)
    (d : list (string * value)) :
  next_outcome w (custom_request self ep method headers request_data) = Received r ->
  requests.status_code r = 200 ->
  json r = Decoded (PDict d) ->
  exists errs w',
    validate_request_response_contract self ep method request_data
      expected_response_schema headers w =
      (Ok (mkContractResult ep method (Nat.eqb (List.length errs) 0) [] [] errs), w').
Proof.
  intros Hr H200 Hj.
  unfold validate_request_response_contract, bind.
  rewrite (check_custom_api_received self ep method headers request_data 200 w r Hr).
  cbn. rewrite H200. cbn. unfold decoded_or_None, lift. rewrite Hj.
  destruct expected_response_schema as [[| entry schema] |].
  - do 2 eexists. reflexivity.
  - destruct (check_schema_dict d (entry :: schema) []) as [more Hmore].
    rewrite Hmore. do 2 eexists. reflexivity.
  - do 2 eexists. reflexivity.
Qed.

Example validate_contract_missing_field :
  fst (validate_request_response_contract Sample.checker "/api/test" "GET" PNone
         (Some [("users", "list"); ("totalCount", "int")]) None
         (Sample.world (fun _ => Sample.ok_json
                                   (PDict [("users", PList [PDict [("id", PInt 1)]])]))))
  = Ok (mkContractResult "/api/test" "GET" false [] []
          ["Missing expected field: totalCount"]).
Proof. reflexivity. Qed.

(** C2, at a 200 answer whose body is not JSON and a schema with one field:
    the probe succeeds with no body, and the membership test of the schema
    loop on [None] raises a [TypeError] out of the validator. *)
Theorem contract_validation_raises_on_non_json_200 :
  forall d : decode_error,
    fst (validate_request_response_contract Sample.checker "/api/html-endpoint" "GET"
           PNone (Some [("id", "int")]) None
           (Sample.world (fun _ => Sample.ok_html d)))
    = Raise TypeError.
Proof.
  intros d. destruct d; reflexivity.
Qed.

(** ** The constructor and the string helpers, on examples *)

Example init_strips_trailing_slashes :
  base_url (init "https://test-app.com//" 30 true) = "https://test-app.com" /\
  base_url (init "https://test-app.com/app" 30 true) = "https://test-app.com/app" /\
  base_url (init "///" 30 true) = "".
Proof. repeat split. Qed.

Example upper_on_methods :
  upper "post" = "POST" /\ upper "Get" = "GET" /\ upper "DELETE" = "DELETE".
Proof. repeat split. Qed.

Example str_int_on_statuses :
  str_int 200 = "200" /\ str_int 0 = "0" /\ str_int 503 = "503" /\ str_int (-1) = "-1".
Proof. repeat split. Qed.

(** ** The constructor *)

Lemma rstrip_spec (c : ascii) (s : string) :
  (exists n, s = rstrip c s ++ str_repeat (String c "") n) /\
  (forall t, rstrip c s <> t ++ String c "").
Proof.
  induction s as [| a s IH].
  - split; [exists 0%nat; reflexivity |].
    intros [| b t]; cbn; discriminate.
  - destruct IH as [[n Hn] Hend]. cbn [rstrip]. destruct (rstrip c s) as [| b t'] eqn:Hr.
    + destruct (Ascii.eqb_spec a c) as [-> | Hac].
      * split; [exists (S n); cbn; rewrite Hn at 1; reflexivity |].
        intros [| b t]; cbn; discriminate.
      * split; [exists n; cbn; rewrite Hn at 1; reflexivity |].
        intros [| b t]; cbn; intros H.
        -- injection H as Ha. congruence.
        -- injection H as _ Ht. destruct t; discriminate Ht.
    + split; [exists n; cbn; rewrite Hn at 1; reflexivity |].
      intros [| b0 t]; cbn; intros H.
      * discriminate H.
      * injection H as _ Ht. apply (Hend t). exact Ht.
Qed.

(** X1: the constructor stores the base URL without its trailing slashes and
    nothing else removed, and stores the timeout and the TLS flag as given. *)
Theorem init_strips_exactly_the_trailing_slashes :
  forall (url : string) (t : Z) (v : bool),
    (exists n, url = base_url (init url t v) ++ str_repeat "/" n) /\
    (forall s, base_url (init url t v) <> s ++ "/") /\
    timeout (init url t v) = t /\
    verify_ssl (init url t v) = v.
Proof.
  intros url t v. cbn [init base_url timeout verify_ssl].
  destruct (rstrip_spec "/" url) as [Hn Hend].
  repeat split; assumption.
Qed.

(** ** What the probes send and report *)

Lemma check_actuator_sent (self : SpringActuatorChecker) (path : string) (w : World) :
  sent (snd (check_actuator self path w)) = (sent w ++ [actuator_request self path])%list /\
  server (snd (check_actuator self path w)) = server w.
Proof.
  unfold_probe. unfold actuator_request.
  destruct (server w _ _) as [r | msg]; cbn; [| split; reflexivity].
  destruct (requests.status_code r =? 200); cbn; [| split; reflexivity].
  destruct (json r) as [v | [m | m]]; cbn; split; reflexivity.
Qed.

(** X2: each fixed-path probe issues exactly one request, whatever comes of
    it: a GET to the base URL followed by the actuator path, with no extra
    header and no body, under the checker's timeout and TLS flag. *)
Theorem fixed_probes_send_one_get :
  forall (self : SpringActuatorChecker) (w : World),
    sent (snd (check_actuator_health self w)) =
      (sent w ++ [mkRequest "GET" (base_url self ++ "/actuator/health") [] PNone
                    (timeout self) (verify_ssl self)])%list /\
    sent (snd (check_actuator_info self w)) =
      (sent w ++ [mkRequest "GET" (base_url self ++ "/actuator/info") [] PNone
                    (timeout self) (verify_ssl self)])%list.
Proof.
  intros self w. rewrite check_actuator_health_eq, check_actuator_info_eq. split.
  - apply (check_actuator_sent self "/actuator/health" w).
  - apply (check_actuator_sent self "/actuator/info" w).
Qed.

Lemma request_headers_default (headers : option (list (string * string))) :
  request_headers headers = match headers with Some h => h | None => [] end.
Proof. destruct headers as [[| entry h] |]; reflexivity. Qed.

(** X3: the general probe issues exactly one request, whatever comes of it:
    the upper-cased method, the target URL, the caller's headers (none when
    [headers] is absent), the caller's JSON body, and the checker's timeout and
    TLS flag. *)
Theorem general_probe_sends_one_request :
  forall (self : SpringActuatorChecker) (ep m : string)
         (headers : option (list (string * string))) (json_data : value)
         (expected_status : Z) (w : World),
    sent (snd (check_custom_api self ep m headers json_data expected_status w)) =
      (sent w ++ [mkRequest (upper m) (full_url self ep)
                    (match headers with Some h => h | None => [] end)
                    json_data (timeout self) (verify_ssl self)])%list.
Proof.
  intros self ep m headers json_data expected_status w.
  rewrite <- request_headers_default.
  destruct (check_custom_api_returns self ep m headers json_data expected_status w)
    as [res Hres].
  rewrite Hres. reflexivity.
Qed.

(** Every way a fixed-path probe can end, by what its request meets. *)
Lemma check_actuator_cases (self : SpringActuatorChecker) (path : string) (w : World) :
  let req := actuator_request self path in
  let url := base_url self ++ path in
  (exists msg,
     next_outcome w req = TransportFailure msg /\
     check_actuator self path w =
       (Ok (mkAPICheckResult url "GET" 0 (elapsed w) false PNone (Some msg)),
        after_probe w req)) \/
  (exists r,
     next_outcome w req = Received r /\ requests.status_code r <> 200 /\
     check_actuator self path w =
       (Ok (mkAPICheckResult url "GET" (requests.status_code r) (elapsed w) false PNone
              (Some ("HTTP " ++ str_int (requests.status_code r) ++ ": " ++ text r))),
        after_probe w req)) \/
  (exists r v,
     next_outcome w req = Received r /\ requests.status_code r = 200 /\
     json r = Decoded v /\
     check_actuator self path w =
       (Ok (mkAPICheckResult url "GET" 200 (elapsed w) true v None), after_probe w req)) \/
  (exists r msg,
     next_outcome w req = Received r /\ requests.status_code r = 200 /\
     json r = NotJSON (requests_JSONDecodeError msg) /\
     check_actuator self path w =
       (Ok (mkAPICheckResult url "GET" 0
              (float_sub (clock w (S (S (ticks w)))) (clock w (ticks w)))
              false PNone (Some msg)),
        mkWorld (clock w) (S (S (S (ticks w)))) (server w) (sent w ++ [req]))) \/
  (exists r msg,
     next_outcome w req = Received r /\ requests.status_code r = 200 /\
     json r = NotJSON (json_JSONDecodeError msg) /\
     check_actuator self path w =
       (Raise (DecodeError (json_JSONDecodeError msg)), after_probe w req)).
Proof.
  intros req url. subst req url.
  destruct (next_outcome w (actuator_request self path)) as [r | msg] eqn:Hr.
  - destruct (Z.eq_dec (requests.status_code r) 200) as [E | E].
    + destruct (json r) as [v | [msg | msg]] eqn:Hj.
      * right; right; left. exists r, v. repeat split; try assumption.
        apply (check_actuator_200_json self path w r v Hr E Hj).
      * right; right; right; right. exists r, msg. repeat split; try assumption.
        apply (check_actuator_200_not_json_raised self path w r msg Hr E Hj).
      * right; right; right; left. exists r, msg. repeat split; try assumption.
        apply (check_actuator_200_not_json_caught self path w r msg Hr E Hj).
    + right; left. exists r. repeat split; try assumption.
      apply (check_actuator_not_200 self path w r Hr E).
  - left. exists msg. split; [reflexivity |].
    apply (check_actuator_transport_failure self path w msg Hr).
Qed.

Ltac invert_fixed_probe self path w H :=
  let msg := fresh "msg" in
  let r := fresh "r" in
  let v := fresh "v" in
  let Hout := fresh "Hout" in
  let Hst := fresh "Hst" in
  let Hj := fresh "Hj" in
  let Hrun := fresh "Hrun" in
  destruct (check_actuator_cases self path w) as
    [[msg [Hout Hrun]]
    | [[r [Hout [Hst Hrun]]]
      | [[r [v [Hout [Hst [Hj Hrun]]]]]
        | [[r [msg [Hout [Hst [Hj Hrun]]]]]
          | [r [msg [Hout [Hst [Hj Hrun]]]]]]]]];
  rewrite Hrun in H; [| | | | discriminate H];
  injection H as <- <-.

Ltac invert_custom_probe self ep m hd jd ex w H :=
  let msg := fresh "msg" in
  let r := fresh "r" in
  let Hout := fresh "Hout" in
  destruct (next_outcome w (custom_request self ep m hd jd)) as [r | msg] eqn:Hout;
  [ rewrite (check_custom_api_received self ep m hd jd ex w r Hout) in H
  | rewrite (check_custom_api_transport_failure self ep m hd jd ex w msg Hout) in H ];
  injection H as <- <-.

(** X4: a transport failure never leaves a probe as an exception: the probe
    returns status 0, no success, no body, and the failure's text as error
    message. *)
Theorem transport_failure_is_reported_as_data :
  forall (self : SpringActuatorChecker) (p : probe) (w : World) (msg : string),
    next_outcome w (probe_request self p) = TransportFailure msg ->
    exists res w',
      run_probe self p w = (Ok res, w') /\
      status_code res = 0 /\
      success res = false /\
      response_body res = PNone /\
      error_message res = Some msg.
Proof.
  intros self p w msg Hout.
  destruct p as [| | ep m hd jd ex]; cbn [run_probe probe_request] in *.
  - rewrite check_actuator_health_eq.
    rewrite (check_actuator_transport_failure self _ w msg Hout).
    do 2 eexists. repeat split.
  - rewrite check_actuator_info_eq.
    rewrite (check_actuator_transport_failure self _ w msg Hout).
    do 2 eexists. repeat split.
  - rewrite (check_custom_api_transport_failure self ep m hd jd ex w msg Hout).
    do 2 eexists. repeat split.
Qed.

Lemma transport_failure_is_reported_as_data_witness :
  exists res w',
    run_probe Sample.checker Info (Sample.world (fun _ => Sample.refused)) = (Ok res, w') /\
    status_code res = 0 /\
    success res = false /\
    response_body res = PNone /\
    error_message res = Some "Connection refused".
Proof.
  apply (transport_failure_is_reported_as_data Sample.checker Info
           (Sample.world (fun _ => Sample.refused)) "Connection refused").
  reflexivity.
Defined.

(** X5: in every result a probe returns, the error message is absent exactly
    when the probe succeeded. *)
Theorem error_message_absent_iff_success :
  forall (self : SpringActuatorChecker) (p : probe) (w w' : World) (res : APICheckResult),
    run_probe self p w = (Ok res, w') ->
    (error_message res = None <-> success res = true).
Proof.
  intros self p w w' res H.
  destruct p as [| | ep m hd jd ex]; cbn [run_probe] in H.
  - rewrite check_actuator_health_eq in H.
    invert_fixed_probe self "/actuator/health" w H; cbn; split; congruence.
  - rewrite check_actuator_info_eq in H.
    invert_fixed_probe self "/actuator/info" w H; cbn; split; congruence.
  - invert_custom_probe self ep m hd jd ex w H; cbn.
    + destruct (requests.status_code r =? ex); split; congruence.
    + split; congruence.
Qed.

Lemma error_message_absent_iff_success_witness :
  exists res w',
    run_probe Sample.checker Health Sample.degraded_world = (Ok res, w') /\
    (error_message res = None <-> success res = true).
Proof.
  do 2 eexists. split; [reflexivity |].
  eapply (error_message_absent_iff_success Sample.checker Health Sample.degraded_world).
  reflexivity.
Defined.

(** X6: a probe reports success only for a response that was received with
    the expected status, and then reports that status. *)
Theorem success_means_expected_status_received :
  forall (self : SpringActuatorChecker) (p : probe) (w w' : World) (res : APICheckResult),
    run_probe self p w = (Ok res, w') ->
    success res = true ->
    status_code res = expected_status_of p /\
    exists r,
      next_outcome w (probe_request self p) = Received r /\
      requests.status_code r = expected_status_of p.
Proof.
  intros self p w w' res H Hs.
  destruct p as [| | ep m hd jd ex];
    cbn [run_probe probe_request expected_status_of] in *.
  - rewrite check_actuator_health_eq in H.
    invert_fixed_probe self "/actuator/health" w H; cbn in Hs; try discriminate Hs.
    split; [reflexivity | eauto].
  - rewrite check_actuator_info_eq in H.
    invert_fixed_probe self "/actuator/info" w H; cbn in Hs; try discriminate Hs.
    split; [reflexivity | eauto].
  - invert_custom_probe self ep m hd jd ex w H; cbn in Hs; try discriminate Hs.
    apply Z.eqb_eq in Hs. cbn. split; [exact Hs | eauto].
Qed.

Lemma success_means_expected_status_received_witness :
  exists res w',
    run_probe Sample.checker Health Sample.degraded_world = (Ok res, w') /\
    success res = true /\
    status_code res = 200 /\
    exists r,
      next_outcome Sample.degraded_world (probe_request Sample.checker Health) = Received r /\
      requests.status_code r = 200.
Proof.
  do 2 eexists. split; [reflexivity |]. split; [reflexivity |].
  eapply (success_means_expected_status_received Sample.checker Health
            Sample.degraded_world); reflexivity.
Defined.

Lemma fixed_probe_failure_has_no_body :
  forall (self : SpringActuatorChecker) (p : probe) (w w' : World) (res : APICheckResult),
    is_fixed p = true ->
    run_probe self p w = (Ok res, w') ->
    success res = false ->
    response_body res = PNone.
Proof.
  intros self p w w' res Hp H Hs.
  destruct (run_probe_fixed self p Hp) as [path [Hrun _]].
  rewrite Hrun in H.
  invert_fixed_probe self path w H; cbn in *; try reflexivity. discriminate Hs.
Qed.

(** X7: a fixed-path probe attaches a response body to successful results
    only: whenever it reports no success, the body is [None]. *)
Theorem fixed_probe_body_only_on_success :
  forall (self : SpringActuatorChecker) (p : probe) (w w' : World) (res : APICheckResult),
    is_fixed p = true ->
    run_probe self p w = (Ok res, w') ->
    success res = false ->
    response_body res = PNone.
Proof.
  intros self p w w' res Hp H Hs.
  exact (fixed_probe_failure_has_no_body self p w w' res Hp H Hs).
Qed.

Lemma fixed_probe_body_only_on_success_witness :
  exists res w',
    run_probe Sample.checker Health
      (Sample.world (fun _ => Sample.unavailable_json Sample.down)) = (Ok res, w') /\
    success res = false /\
    response_body res = PNone.
Proof.
  do 2 eexists. split; [reflexivity |]. split; [reflexivity |].
  eapply (fixed_probe_body_only_on_success Sample.checker Health
            (Sample.world (fun _ => Sample.unavailable_json Sample.down)));
    reflexivity.
Defined.

(** X8: the endpoint and the method of a returned result are the URL and the
    verb of the request the probe issued. *)
Theorem result_names_the_request_issued :
  forall (self : SpringActuatorChecker) (p : probe) (w w' : World) (res : APICheckResult),
    run_probe self p w = (Ok res, w') ->
    endpoint res = req_url (probe_request self p) /\
    method res = req_method (probe_request self p) /\
    sent w' = (sent w ++ [probe_request self p])%list.
Proof.
  intros self p w w' res H.
  destruct p as [| | ep m hd jd ex]; cbn [run_probe probe_request] in *.
  - rewrite check_actuator_health_eq in H.
    invert_fixed_probe self "/actuator/health" w H; repeat split.
  - rewrite check_actuator_info_eq in H.
    invert_fixed_probe self "/actuator/info" w H; repeat split.
  - invert_custom_probe self ep m hd jd ex w H; repeat split.
Qed.

Lemma result_names_the_request_issued_witness :
  exists res w',
    run_probe Sample.checker (Custom "/api/users" "post" None PNone 201)
      (Sample.world (fun _ => Sample.refused)) = (Ok res, w') /\
    endpoint res = "https://test-app.com/api/users" /\
    method res = "POST" /\
    sent w' = [mkRequest "POST" "https://test-app.com/api/users" [] PNone 10 false].
Proof.
  do 2 eexists. split; [cbv; reflexivity |].
  eapply (result_names_the_request_issued Sample.checker
            (Custom "/api/users" "post" None PNone 201)
            (Sample.world (fun _ => Sample.refused))).
  reflexivity.
Defined.

(** ** The aggregate, from the answers of the service *)

Lemma check_actuator_summary (self : SpringActuatorChecker) (path : string) (w : World) :
  let req := actuator_request self path in
  match escaping_answer (next_outcome w req) with
  | Some msg =>
      check_actuator self path w =
        (Raise (DecodeError (json_JSONDecodeError msg)), after_probe w req)
  | None =>
      exists res w',
        check_actuator self path w = (Ok res, w') /\
        success res = healthy_answer (next_outcome w req) /\
        sent w' = (sent w ++ [req])%list /\
        server w' = server w
  end.
Proof.
  intros req. subst req.
  destruct (check_actuator_cases self path w) as
    [[msg [Hout Hrun]]
    | [[r [Hout [Hst Hrun]]]
      | [[r [v [Hout [Hst [Hj Hrun]]]]]
        | [[r [msg [Hout [Hst [Hj Hrun]]]]]
          | [r [msg [Hout [Hst [Hj Hrun]]]]]]]]];
    rewrite Hout; cbn [escaping_answer healthy_answer].
  - rewrite Hrun. do 2 eexists. repeat split.
  - apply Z.eqb_neq in Hst. rewrite Hst. rewrite Hrun. do 2 eexists. repeat split.
  - rewrite Hst, Hj. rewrite Hrun. do 2 eexists. repeat split.
  - rewrite Hst, Hj. rewrite Hrun. do 2 eexists. repeat split.
  - rewrite Hst, Hj. exact Hrun.
Qed.

Lemma next_outcome_after_one (w w1 : World) (req1 req : Request) :
  sent w1 = (sent w ++ [req1])%list ->
  server w1 = server w ->
  next_outcome w1 req = second_outcome w req.
Proof.
  intros Hsent Hserver. unfold next_outcome, second_outcome.
  rewrite Hsent, Hserver, length_app. cbn. rewrite Nat.add_1_r. reflexivity.
Qed.

Lemma check_deployment_status_from_answers :
  forall (self : SpringActuatorChecker) (name : string) (w : World),
    let health := actuator_request self "/actuator/health" in
    let info := actuator_request self "/actuator/info" in
    escaping_answer (next_outcome w health) = None ->
    escaping_answer (second_outcome w info) = None ->
    exists status w',
      check_deployment_status self name w = (Ok status, w') /\
      deployment_status status =
        (if healthy_answer (next_outcome w health)
         then if healthy_answer (second_outcome w info) then "HEALTHY" else "DEGRADED"
         else "DOWN") /\
      sent w' = (sent w ++ [health; info])%list.
Proof.
  intros self name w health info Hh Hi. subst health info.
  pose proof (check_actuator_summary self "/actuator/health" w) as Sh.
  cbv zeta in Sh. rewrite Hh in Sh.
  destruct Sh as [h [w1 [Hrun1 [Hs1 [Hsent1 Hserver1]]]]].
  pose proof (check_actuator_summary self "/actuator/info" w1) as Si.
  cbv zeta in Si.
  rewrite (next_outcome_after_one w w1 _ _ Hsent1 Hserver1) in Si.
  rewrite Hi in Si.
  destruct Si as [i [w2 [Hrun2 [Hs2 [Hsent2 Hserver2]]]]].
  rewrite <- check_actuator_health_eq in Hrun1.
  rewrite <- check_actuator_info_eq in Hrun2.
  do 2 eexists. split.
  - apply (check_deployment_status_run self name w w1 w2 h i Hrun1 Hrun2).
  - cbn [deployment_status sent]. split.
    + rewrite derive_deployment_status_cases, Hs1, Hs2. reflexivity.
    + rewrite Hsent2, Hsent1, <- app_assoc. reflexivity.
Qed.

(** X9: when neither actuator answer makes its probe raise, the deployment
    check returns HEALTHY if both endpoints answer 200 with a JSON body,
    DEGRADED if only the health endpoint does, DOWN otherwise, and it has
    issued exactly two requests: health, then info, also after a failed
    health probe. *)
Theorem deployment_status_from_answers :
  forall (self : SpringActuatorChecker) (name : string) (w : World),
    let health := actuator_request self "/actuator/health" in
    let info := actuator_request self "/actuator/info" in
    escaping_answer (next_outcome w health) = None ->
    escaping_answer (second_outcome w info) = None ->
    exists status w',
      check_deployment_status self name w = (Ok status, w') /\
      deployment_status status =
        (if healthy_answer (next_outcome w health)
         then if healthy_answer (second_outcome w info) then "HEALTHY" else "DEGRADED"
         else "DOWN") /\
      sent w' = (sent w ++ [health; info])%list.
Proof.
  intros self name w health info Hh Hi.
  exact (check_deployment_status_from_answers self name w Hh Hi).
Qed.

Lemma deployment_status_from_answers_witness :
  exists status w',
    check_deployment_status Sample.checker "m" (Sample.world (fun _ => Sample.refused))
      = (Ok status, w') /\
    deployment_status status = "DOWN" /\
    sent w' = [mkRequest "GET" "https://test-app.com/actuator/health" [] PNone 10 false;
               mkRequest "GET" "https://test-app.com/actuator/info" [] PNone 10 false].
Proof.
  apply (deployment_status_from_answers Sample.checker "m"
           (Sample.world (fun _ => Sample.refused))); reflexivity.
Defined.

Lemma check_deployment_status_health_raises :
  forall (self : SpringActuatorChecker) (name : string) (w : World) (msg : string),
    escaping_answer (next_outcome w (actuator_request self "/actuator/health")) = Some msg ->
    fst (check_deployment_status self name w) = Raise (DecodeError (json_JSONDecodeError msg)) /\
    sent (snd (check_deployment_status self name w)) =
      (sent w ++ [actuator_request self "/actuator/health"])%list.
Proof.
  intros self name w msg Hh.
  pose proof (check_actuator_summary self "/actuator/health" w) as Sh.
  cbv zeta in Sh. rewrite Hh in Sh. rewrite <- check_actuator_health_eq in Sh.
  unfold check_deployment_status, bind. rewrite Sh. split; reflexivity.
Qed.

(** X10: when the health endpoint answers 200 with a body whose decode error
    is a plain [json.JSONDecodeError], the deployment check raises that error
    and the info probe is never issued. *)
Theorem deployment_check_stops_at_raising_health_probe :
  forall (self : SpringActuatorChecker) (name : string) (w : World) (msg : string),
    escaping_answer (next_outcome w (actuator_request self "/actuator/health")) = Some msg ->
    fst (check_deployment_status self name w) = Raise (DecodeError (json_JSONDecodeError msg)) /\
    sent (snd (check_deployment_status self name w)) =
      (sent w ++ [actuator_request self "/actuator/health"])%list.
Proof.
  intros self name w msg Hh.
  exact (check_deployment_status_health_raises self name w msg Hh).
Qed.

Lemma deployment_check_stops_at_raising_health_probe_witness :
  fst (check_deployment_status Sample.checker "m"
         (Sample.world (fun _ => Sample.ok_html (json_JSONDecodeError "Expecting value"))))
  = Raise (DecodeError (json_JSONDecodeError "Expecting value")) /\
  sent (snd (check_deployment_status Sample.checker "m"
               (Sample.world (fun _ => Sample.ok_html (json_JSONDecodeError "Expecting value")))))
  = [mkRequest "GET" "https://test-app.com/actuator/health" [] PNone 10 false].
Proof.
  apply (deployment_check_stops_at_raising_health_probe Sample.checker "m"
           (Sample.world (fun _ => Sample.ok_html (json_JSONDecodeError "Expecting value")))
           "Expecting value").
  reflexivity.
Defined.

Lemma check_deployment_status_inv (self : SpringActuatorChecker) (name : string)
    (w w' : World) (status : ModuleHealthStatus) :
  check_deployment_status self name w = (Ok status, w') ->
  exists h w1 i w2,
    check_actuator_health self w = (Ok h, w1) /\
    check_actuator_info self w1 = (Ok i, w2) /\
    status = mkModuleHealthStatus name
               (derive_deployment_status h i)
               (or_else (response_body h) (PDict []))
               [h; i]
               (derive_deployment_status h i)
               (clock w2 (ticks w2)).
Proof.
  intros H.
  destruct (check_actuator_health self w) as [[h | e] w1] eqn:Hh.
  - destruct (check_actuator_info self w1) as [[i | e] w2] eqn:Hi.
    + rewrite (check_deployment_status_run self name w w1 w2 h i Hh Hi) in H.
      injection H as <- _. exists h, w1, i, w2. repeat split. exact Hi.
    + unfold check_deployment_status, bind in H. rewrite Hh, Hi in H. discriminate H.
  - unfold check_deployment_status, bind in H. rewrite Hh in H. discriminate H.
Qed.

Lemma or_else_dict_not_None (v : value) : or_else v (PDict []) <> PNone.
Proof.
  unfold or_else. destruct (truthy v) eqn:Ht; [| discriminate].
  intros ->. discriminate Ht.
Qed.

(** X11: the health details of a returned status are the body of the health
    probe's result when that body is truthy and the empty mapping otherwise;
    so they are never [None], and with the verdict DOWN they are always the
    empty mapping. *)
Theorem health_details_default_to_empty_mapping :
  forall (self : SpringActuatorChecker) (name : string) (w w' w1 : World)
         (status : ModuleHealthStatus) (health_result : APICheckResult),
    check_deployment_status self name w = (Ok status, w') ->
    check_actuator_health self w = (Ok health_result, w1) ->
    actuator_health status =
      (if truthy (response_body health_result) then response_body health_result
       else PDict []) /\
    actuator_health status <> PNone /\
    (deployment_status status = "DOWN" -> actuator_health status = PDict []).
Proof.
  intros self name w w' w1 status health_result H Hhealth.
  destruct (check_deployment_status_inv self name w w' status H)
    as [h [w1' [i [w2 [Hh [Hi ->]]]]]].
  rewrite Hhealth in Hh. injection Hh as <- <-.
  cbn [actuator_health deployment_status]. split; [reflexivity |].
  split; [apply or_else_dict_not_None |].
  rewrite derive_deployment_status_cases. intros Hdown.
  assert (Hs : success health_result = false).
  { destruct (success health_result);
      [destruct (success i); discriminate Hdown | reflexivity]. }
  rewrite (fixed_probe_failure_has_no_body self Health w w1 health_result
             eq_refl Hhealth Hs).
  reflexivity.
Qed.

Lemma health_details_default_to_empty_mapping_witness :
  exists status w' health_result w1,
    check_deployment_status Sample.checker "m" Sample.degraded_world = (Ok status, w') /\
    check_actuator_health Sample.checker Sample.degraded_world = (Ok health_result, w1) /\
    response_body health_result = PDict [("status", PStr "UP")] /\
    actuator_health status =
      (if truthy (response_body health_result) then response_body health_result
       else PDict []) /\
    actuator_health status <> PNone /\
    (deployment_status status = "DOWN" -> actuator_health status = PDict []).
Proof.
  do 4 eexists. split; [cbv; reflexivity |]. split; [cbv; reflexivity |].
  split; [reflexivity |].
  eapply (health_details_default_to_empty_mapping Sample.checker "m"
            Sample.degraded_world); cbv; reflexivity.
Defined.

(** ** The contract report *)

(** The validator after a successful probe: the schema loop decides. *)
Lemma validate_after_success (self : SpringActuatorChecker) (ep m : string)
    (request_data : value) (expected_response_schema : option (list (string * string)))
    (headers : option (list (string * string))) (w : World) (r : Response) :
  next_outcome w (custom_request self ep m headers request_data) = Received r ->
  requests.status_code r = 200 ->
  validate_request_response_contract self ep m request_data
    expected_response_schema headers w =
    (match check_schema (decoded_or_None r) (schema_entries expected_response_schema) [] with
     | Ok errs => Ok (mkContractResult ep m (Nat.eqb (List.length errs) 0) [] [] errs)
     | Raise e => Raise e
     end,
     after_probe w (custom_request self ep m headers request_data)).
Proof.
  intros Hr H200.
  unfold validate_request_response_contract, bind.
  rewrite (check_custom_api_received self ep m headers request_data 200 w r Hr).
  cbn [success response_body errors]. rewrite H200. cbn [Z.eqb Pos.eqb negb]. unfold lift.
  destruct expected_response_schema as [[| entry schema] |]; cbn [schema_entries].
  - reflexivity.
  - destruct (check_schema (decoded_or_None r) (entry :: schema) []); reflexivity.
  - reflexivity.
Qed.

Lemma check_schema_on_dict (d : list (string * value)) (schema : list (string * string)) :
  forall errs,
    check_schema (PDict d) schema errs = Ok (errs ++ flat_map (field_errors d) schema)%list.
Proof.
  induction schema as [| [key expected_type] rest IH]; intros errs.
  - cbn. rewrite app_nil_r. reflexivity.
  - cbn [check_schema contains getitem rbind flat_map field_errors].
    destruct (dict_get d key) as [field |]; cbn [negb rbind].
    + destruct (type_name field =? expected_type)%string; cbn [negb].
      * apply IH.
      * rewrite IH, <- app_assoc. reflexivity.
    + rewrite IH, <- app_assoc. reflexivity.
Qed.

(** X12: whenever the validator returns a report, the report is valid exactly
    when its error list is empty, it repeats the endpoint and the method as the
    caller gave them, and its two validation maps are empty. *)
Theorem contract_report_invariants :
  forall (self : SpringActuatorChecker) (ep m : string) (request_data : value)
         (expected_response_schema : option (list (string * string)))
         (headers : option (list (string * string))) (w w' : World)
         (report : ContractResult),
    validate_request_response_contract self ep m request_data
      expected_response_schema headers w = (Ok report, w') ->
    (contract_valid report = true <-> errors report = []) /\
    contract_endpoint report = ep /\
    contract_method report = m /\
    request_validation report = [] /\
    response_validation report = [].
Proof.
  intros self ep m request_data schema headers w w' report H.
  unfold validate_request_response_contract, bind in H.
  destruct (check_custom_api self ep m headers request_data 200 w) as [[res | e] w1];
    [| discriminate H].
  destruct (success res); cbn [negb] in H.
  - unfold lift in H.
    destruct (match schema with
              | Some ((_ :: _) as schema0) => check_schema (response_body res) schema0 _
              | _ => _
              end) as [errs | e]; [| discriminate H].
    injection H as <- _. cbn. repeat split; try reflexivity.
    + destruct errs; [reflexivity | discriminate].
    + intros ->. reflexivity.
  - injection H as <- _. cbn. repeat split; try reflexivity; discriminate.
Qed.

Lemma contract_report_invariants_witness :
  exists report w',
    validate_request_response_contract Sample.checker "/api/test" "get" PNone
      (Some [("status", "str")]) None (Sample.world (fun _ => Sample.ok_json Sample.up))
      = (Ok report, w') /\
    (contract_valid report = true <-> errors report = []) /\
    contract_endpoint report = "/api/test" /\
    contract_method report = "get" /\
    request_validation report = [] /\
    response_validation report = [].
Proof.
  do 2 eexists. split; [cbv; reflexivity |].
  eapply (contract_report_invariants Sample.checker "/api/test" "get" PNone
            (Some [("status", "str")]) None
            (Sample.world (fun _ => Sample.ok_json Sample.up))).
  cbv; reflexivity.
Defined.

(** X13: with no schema, or an empty one, a 200 answer always gives a valid
    report with no error, whatever the body, JSON or not. *)
Theorem no_schema_means_valid_on_200 :
  forall (self : SpringActuatorChecker) (ep m : string) (request_data : value)
         (expected_response_schema : option (list (string * string)))
         (headers : option (list (string * string))) (w : World) (r : Response),
    next_outcome w (custom_request self ep m headers request_data) = Received r ->
    requests.status_code r = 200 ->
    schema_entries expected_response_schema = [] ->
    fst (validate_request_response_contract self ep m request_data
           expected_response_schema headers w)
    = Ok (mkContractResult ep m true [] [] []).
Proof.
  intros self ep m request_data schema headers w r Hr H200 Hempty.
  rewrite (validate_after_success self ep m request_data schema headers w r Hr H200).
  rewrite Hempty. reflexivity.
Qed.

Lemma no_schema_means_valid_on_200_witness :
  fst (validate_request_response_contract Sample.checker "/api/html-endpoint" "GET" PNone
         None None
         (Sample.world (fun _ => Sample.ok_html (json_JSONDecodeError "Expecting value"))))
  = Ok (mkContractResult "/api/html-endpoint" "GET" true [] [] []).
Proof.
  apply (no_schema_means_valid_on_200 Sample.checker "/api/html-endpoint" "GET" PNone
           None None
           (Sample.world (fun _ => Sample.ok_html (json_JSONDecodeError "Expecting value")))
           (mkResponse 200 "<html>Not JSON response</html>"
              (NotJSON (json_JSONDecodeError "Expecting value"))));
    reflexivity.
Defined.

(** X14: on a 200 answer whose body is a JSON object the validator returns a
    report whose errors are, in the order of the schema, at most one message
    per entry: "Missing expected field" for an absent key, "Type mismatch" for
    a value of another type, nothing for a match. *)
Theorem contract_errors_follow_the_schema :
  forall (self : SpringActuatorChecker) (ep m : string) (request_data : value)
         (expected_response_schema : option (list (string * string)))
         (headers : option (list (string * string))) (w : World) (r : Response)
         (d : list (string * value)),
    next_outcome w (custom_request self ep m headers request_data) = Received r ->
    requests.status_code r = 200 ->
    json r = Decoded (PDict d) ->
    exists report w',
      validate_request_response_contract self ep m request_data
        expected_response_schema headers w = (Ok report, w') /\
      errors report = flat_map (field_errors d) (schema_entries expected_response_schema) /\
      (List.length (errors report)
       <= List.length (schema_entries expected_response_schema))%nat.
Proof.
  intros self ep m request_data schema headers w r d Hr H200 Hj.
  rewrite (validate_after_success self ep m request_data schema headers w r Hr H200).
  unfold decoded_or_None. rewrite Hj, check_schema_on_dict.
  do 2 eexists. split; [reflexivity |]. cbn [errors app]. split; [reflexivity |].
  induction (schema_entries schema) as [| [key ty] rest IH]; [apply Nat.le_refl |].
  cbn [flat_map]. rewrite length_app. cbn [List.length].
  assert (List.length (field_errors d (key, ty)) <= 1)%nat.
  { unfold field_errors. destruct (dict_get d key) as [field |]; [| apply Nat.le_refl].
    destruct (type_name field =? ty)%string; cbn; lia. }
  lia.
Qed.

Lemma contract_errors_follow_the_schema_witness :
  exists report w',
    validate_request_response_contract Sample.checker "/api/test" "GET" PNone
      (Some [("status", "int"); ("totalCount", "int")]) None
      (Sample.world (fun _ => Sample.ok_json Sample.up)) = (Ok report, w') /\
    errors report = ["Type mismatch for status: expected int, got str";
                     "Missing expected field: totalCount"] /\
    (List.length (errors report) <= 2)%nat.
Proof.
  apply (contract_errors_follow_the_schema Sample.checker "/api/test" "GET" PNone
           (Some [("status", "int"); ("totalCount", "int")]) None
           (Sample.world (fun _ => Sample.ok_json Sample.up))
           (mkResponse 200 "{...}" (Decoded Sample.up))
           [("status", PStr "UP")]);
    reflexivity.
Defined.

Lemma field_errors_nil (d : list (string * value)) (schema : list (string * string)) :
  flat_map (field_errors d) schema = [] <->
  (forall key ty, In (key, ty) schema ->
                  exists field, dict_get d key = Some field /\ type_name field = ty).
Proof.
  induction schema as [| [key ty] rest IH]; cbn [flat_map In].
  - split; [intros _ key ty [] | reflexivity].
  - split.
    + intros H. apply app_eq_nil in H. destruct H as [Hhead Hrest].
      intros key' ty' [E | Hin].
      * injection E as <- <-. unfold field_errors in Hhead.
        destruct (dict_get d key) as [field |]; [| discriminate Hhead].
        destruct (String.eqb_spec (type_name field) ty) as [Heq | Hne];
          [eauto | discriminate Hhead].
      * apply IH; assumption.
    + intros H.
      destruct (H key ty (or_introl eq_refl)) as [field [Hget Hty]].
      unfold field_errors at 1. rewrite Hget, Hty, String.eqb_refl. cbn [app].
      apply IH. intros key' ty' Hin. apply H. right. exact Hin.
Qed.

(** X15: on a 200 answer whose body is a JSON object, the report is valid
    exactly when every key of the schema is present in the body with a value
    whose type name is the one the schema gives. *)
Theorem contract_valid_iff_every_field_matches :
  forall (self : SpringActuatorChecker) (ep m : string) (request_data : value)
         (expected_response_schema : option (list (string * string)))
         (headers : option (list (string * string))) (w : World) (r : Response)
         (d : list (string * value)),
    next_outcome w (custom_request self ep m headers request_data) = Received r ->
    requests.status_code r = 200 ->
    json r = Decoded (PDict d) ->
    exists report w',
      validate_request_response_contract self ep m request_data
        expected_response_schema headers w = (Ok report, w') /\
      (contract_valid report = true <->
       forall key ty, In (key, ty) (schema_entries expected_response_schema) ->
                      exists field, dict_get d key = Some field /\ type_name field = ty).
Proof.
  intros self ep m request_data schema headers w r d Hr H200 Hj.
  rewrite (validate_after_success self ep m request_data schema headers w r Hr H200).
  unfold decoded_or_None. rewrite Hj, check_schema_on_dict.
  do 2 eexists. split; [reflexivity |]. cbn [contract_valid app].
  rewrite <- field_errors_nil.
  destruct (flat_map (field_errors d) (schema_entries schema)); cbn; split;
    congruence.
Qed.

Lemma contract_valid_iff_every_field_matches_witness :
  exists report w',
    validate_request_response_contract Sample.checker "/api/test" "GET" PNone
      (Some [("status", "str")]) None
      (Sample.world (fun _ => Sample.ok_json Sample.up)) = (Ok report, w') /\
    (contract_valid report = true <->
     forall key ty, In (key, ty) [("status", "str")] ->
                    exists field,
                      dict_get [("status", PStr "UP")] key = Some field /\
                      type_name field = ty).
Proof.
  apply (contract_valid_iff_every_field_matches Sample.checker "/api/test" "GET" PNone
           (Some [("status", "str")]) None
           (Sample.world (fun _ => Sample.ok_json Sample.up))
           (mkResponse 200 "{...}" (Decoded Sample.up))
           [("status", PStr "UP")]);
    reflexivity.
Defined.

(** X16: on a 200 answer whose body is a JSON object, every schema key the
    body lacks is reported as "Missing expected field: <key>", and every key
    whose value has another type as "Type mismatch for <key>: expected
    <expected>, got <actual>". *)
Theorem missing_and_mistyped_fields_are_reported :
  forall (self : SpringActuatorChecker) (ep m : string) (request_data : value)
         (expected_response_schema : option (list (string * string)))
         (headers : option (list (string * string))) (w : World) (r : Response)
         (d : list (string * value)) (key ty : string),
    next_outcome w (custom_request self ep m headers request_data) = Received r ->
    requests.status_code r = 200 ->
    json r = Decoded (PDict d) ->
    In (key, ty) (schema_entries expected_response_schema) ->
    exists report w',
      validate_request_response_contract self ep m request_data
        expected_response_schema headers w = (Ok report, w') /\
      match dict_get d key with
      | None => In ("Missing expected field: " ++ key) (errors report)
      | Some field =>
          type_name field <> ty ->
          In ("Type mismatch for " ++ key ++ ": expected " ++ ty ++ ", got "
                ++ type_name field) (errors report)
      end.
Proof.
  intros self ep m request_data schema headers w r d key ty Hr H200 Hj Hin.
  rewrite (validate_after_success self ep m request_data schema headers w r Hr H200).
  unfold decoded_or_None. rewrite Hj, check_schema_on_dict.
  do 2 eexists. split; [reflexivity |]. cbn [errors app].
  destruct (dict_get d key) as [field |] eqn:Hget.
  - intros Hne. apply in_flat_map. exists (key, ty). split; [exact Hin |].
    unfold field_errors. rewrite Hget.
    apply String.eqb_neq in Hne. rewrite Hne. left. reflexivity.
  - apply in_flat_map. exists (key, ty). split; [exact Hin |].
    unfold field_errors. rewrite Hget. left. reflexivity.
Qed.

Lemma missing_and_mistyped_fields_are_reported_witness :
  exists report w',
    validate_request_response_contract Sample.checker "/api/test" "GET" PNone
      (Some [("users", "list"); ("totalCount", "int")]) None
      (Sample.world (fun _ => Sample.ok_json (PDict [("users", PList [])])))
      = (Ok report, w') /\
    In "Missing expected field: totalCount" (errors report).
Proof.
  apply (missing_and_mistyped_fields_are_reported Sample.checker "/api/test" "GET" PNone
           (Some [("users", "list"); ("totalCount", "int")]) None
           (Sample.world (fun _ => Sample.ok_json (PDict [("users", PList [])])))
           (mkResponse 200 "{...}" (Decoded (PDict [("users", PList [])])))
           [("users", PList [])] "totalCount" "int");
    try reflexivity.
  right. left. reflexivity.
Defined.

(** X17: on a 200 answer whose body is not JSON, or is a JSON null, boolean
    or number, a schema with at least one entry makes the validator raise a
    [TypeError] instead of returning a report. *)
Theorem contract_validation_raises_on_scalar_body :
  forall (self : SpringActuatorChecker) (ep m : string) (request_data : value)
         (expected_response_schema : option (list (string * string)))
         (headers : option (list (string * string))) (w : World) (r : Response),
    next_outcome w (custom_request self ep m headers request_data) = Received r ->
    requests.status_code r = 200 ->
    In (type_name (decoded_or_None r)) ["NoneType"; "bool"; "int"; "float"] ->
    schema_entries expected_response_schema <> [] ->
    fst (validate_request_response_contract self ep m request_data
           expected_response_schema headers w) = Raise TypeError.
Proof.
  intros self ep m request_data schema headers w r Hr H200 Hty Hne.
  rewrite (validate_after_success self ep m request_data schema headers w r Hr H200).
  destruct (schema_entries schema) as [| [key ty] rest]; [congruence |].
  destruct (decoded_or_None r); cbn in Hty |- *; try reflexivity;
    repeat (destruct Hty as [Hty | Hty]; try discriminate Hty); contradiction.
Qed.

Lemma contract_validation_raises_on_scalar_body_witness :
  fst (validate_request_response_contract Sample.checker "/api/count" "GET" PNone
         (Some [("totalCount", "int")]) None
         (Sample.world (fun _ => Sample.ok_json (PInt 2))))
  = Raise TypeError.
Proof.
  apply (contract_validation_raises_on_scalar_body Sample.checker "/api/count" "GET" PNone
           (Some [("totalCount", "int")]) None
           (Sample.world (fun _ => Sample.ok_json (PInt 2)))
           (mkResponse 200 "{...}" (Decoded (PInt 2)))).
  - reflexivity.
  - reflexivity.
  - cbn. right. right. left. reflexivity.
  - discriminate.
Defined.

(** X18: the validator always expects status 200: for any other received
    status the report is invalid with the single error "API call failed:
    Expected 200, got <status>", and on a transport failure with the single
    error "API call failed: <failure text>". *)
Theorem contract_failure_messages :
  forall (self : SpringActuatorChecker) (ep m : string) (request_data : value)
         (expected_response_schema : option (list (string * string)))
         (headers : option (list (string * string))) (w : World) (reason : string),
    match next_outcome w (custom_request self ep m headers request_data) with
    | Received r =>
        requests.status_code r <> 200 /\
        reason = "Expected 200, got " ++ str_int (requests.status_code r)
    | TransportFailure msg => reason = msg
    end ->
    fst (validate_request_response_contract self ep m request_data
           expected_response_schema headers w)
    = Ok (mkContractResult ep m false [] [] ["API call failed: " ++ reason]).
Proof.
  intros self ep m request_data schema headers w reason H.
  unfold validate_request_response_contract, bind.
  destruct (next_outcome w (custom_request self ep m headers request_data))
    as [r | msg] eqn:Hr.
  - destruct H as [Hne ->].
    rewrite (check_custom_api_received self ep m headers request_data 200 w r Hr).
    cbn [success error_message]. apply Z.eqb_neq in Hne. rewrite Hne. reflexivity.
  - subst reason.
    rewrite (check_custom_api_transport_failure self ep m headers request_data 200 w msg Hr).
    reflexivity.
Qed.

Lemma contract_failure_messages_witness :
  fst (validate_request_response_contract Sample.checker "/api/test" "GET" PNone
         (Some [("users", "list")]) None
         (Sample.world (fun _ => Sample.unavailable_json Sample.down)))
  = Ok (mkContractResult "/api/test" "GET" false [] []
          ["API call failed: Expected 200, got 503"]).
Proof.
  apply (contract_failure_messages Sample.checker "/api/test" "GET" PNone
           (Some [("users", "list")]) None
           (Sample.world (fun _ => Sample.unavailable_json Sample.down))
           "Expected 200, got 503").
  split; [discriminate | reflexivity].
Defined.

Lemma check_schema_on_list_without_keys (l : list value) (schema : list (string * string)) :
  (forall key ty, In (key, ty) schema -> ~ In (PStr key) l) ->
  forall errs,
    check_schema (PList l) schema errs =
      Ok (app errs (map (fun entry => "Missing expected field: " ++ fst entry) schema)).
Proof.
  induction schema as [| [key ty] rest IH]; intros Hnot errs.
  - cbn. rewrite app_nil_r. reflexivity.
  - cbn [check_schema contains rbind map fst].
    assert (Hfalse : existsb (fun x => eq_str x key) l = false).
    { destruct (existsb (fun x => eq_str x key) l) eqn:Hex; [| reflexivity].
      apply existsb_exists in Hex. destruct Hex as [x [Hin Heq]].
      destruct x; try discriminate Heq. cbn in Heq. apply String.eqb_eq in Heq. subst.
      exfalso. apply (Hnot key ty); [left; reflexivity | exact Hin]. }
    rewrite Hfalse. cbn [negb].
    rewrite IH; [rewrite <- app_assoc; reflexivity |].
    intros key' ty' Hin. apply (Hnot key' ty'). right. exact Hin.
Qed.

(** X19: on a 200 answer whose body is a JSON array, membership is tested
    among the array's elements: when no schema key is one of them, every
    schema key is reported as a missing field, in schema order, and the report
    is returned. *)
Theorem array_body_reports_every_field_missing :
  forall (self : SpringActuatorChecker) (ep m : string) (request_data : value)
         (expected_response_schema : option (list (string * string)))
         (headers : option (list (string * string))) (w : World) (r : Response)
         (l : list value),
    next_outcome w (custom_request self ep m headers request_data) = Received r ->
    requests.status_code r = 200 ->
    json r = Decoded (PList l) ->
    (forall key ty, In (key, ty) (schema_entries expected_response_schema) ->
                    ~ In (PStr key) l) ->
    exists report w',
      validate_request_response_contract self ep m request_data
        expected_response_schema headers w = (Ok report, w') /\
      errors report =
        map (fun entry => "Missing expected field: " ++ fst entry)
            (schema_entries expected_response_schema).
Proof.
  intros self ep m request_data schema headers w r l Hr H200 Hj Hnot.
  rewrite (validate_after_success self ep m request_data schema headers w r Hr H200).
  unfold decoded_or_None. rewrite Hj.
  rewrite (check_schema_on_list_without_keys l (schema_entries schema) Hnot).
  do 2 eexists. split; reflexivity.
Qed.

Lemma array_body_reports_every_field_missing_witness :
  exists report w',
    validate_request_response_contract Sample.checker "/api/users" "GET" PNone
      (Some [("users", "list"); ("totalCount", "int")]) None
      (Sample.world (fun _ => Sample.ok_json (PList [PDict [("id", PInt 1)]])))
      = (Ok report, w') /\
    errors report = ["Missing expected field: users"; "Missing expected field: totalCount"].
Proof.
  apply (array_body_reports_every_field_missing Sample.checker "/api/users" "GET" PNone
           (Some [("users", "list"); ("totalCount", "int")]) None
           (Sample.world (fun _ => Sample.ok_json (PList [PDict [("id", PInt 1)]])))
           (mkResponse 200 "{...}" (Decoded (PList [PDict [("id", PInt 1)]])))
           [PDict [("id", PInt 1)]]);
    try reflexivity.
  intros key ty _ [H | []]. discriminate H.
Defined.

(** ** The command line *)

Section MainProperties.

Variable json_loads : string -> value + string.
Variable json_dumps : value -> string.
Variable format_2f : float -> string.
Variable str_datetime : float -> string.

Let run := main json_loads json_dumps format_2f str_datetime.

(** The checker [main] builds. *)
Let checker_of (args : Args) : SpringActuatorChecker :=
  init (args_url args) (args_timeout args) (negb (args_no_ssl_verify args)).

(** X20: when [--api-data] is given, not empty, and is not valid JSON, [main]
    exits with status 1 before building the checker: nothing is printed and no
    request is issued. *)
Theorem main_rejects_invalid_api_data (args : Args) (w : World) (data msg : string) :
  args_api_data args = Some data ->
  data <> "" ->
  json_loads data = inr msg ->
  run args w = mkRun [] (Exit 1) w.
Proof.
  intros Hdata Hne Hload. subst run. unfold main, parse_api_data. rewrite Hdata.
  destruct data as [| c data]; [congruence |]. rewrite Hload. reflexivity.
Qed.

Lemma main_after_deployment_check (args : Args) (w w1 : World) (json_data : value)
    (status : ModuleHealthStatus) :
  parse_api_data json_loads args = inl json_data ->
  check_deployment_status (checker_of args) (args_module args) w = (Ok status, w1) ->
  ended (run args w) =
    Exit (if (deployment_status status =? "HEALTHY")%string then 0 else 1) /\
  sent (final (run args w)) =
    (sent w1 ++
       match args_api_endpoint args with
       | Some ((String _ _) as api_endpoint) =>
           [custom_request (checker_of args) api_endpoint (args_api_method args)
              None json_data]
       | _ => []
       end)%list.
Proof.
  intros Hparse Hcheck. subst run checker_of. unfold main.
  rewrite Hparse. cbv zeta. rewrite Hcheck.
  destruct (args_api_endpoint args) as [[| c api_endpoint] |].
  - cbn. rewrite app_nil_r. split; reflexivity.
  - destruct (check_custom_api_returns
                (init (args_url args) (args_timeout args) (negb (args_no_ssl_verify args)))
                (String c api_endpoint) (args_api_method args) None json_data 200 w1)
      as [res Hres].
    rewrite Hres. cbn. split; reflexivity.
  - cbn. rewrite app_nil_r. split; reflexivity.
Qed.

(** X21: when the arguments parse and neither actuator answer makes its
    probe raise, [main] exits with status 0 exactly when both actuator
    endpoints answer 200 with a JSON body, and with status 1 otherwise,
    whatever the additional check finds; it issues the health and info
    requests, followed, when [--api-endpoint] is given and not empty, by one
    request to that endpoint carrying the parsed data, all under the given
    timeout and with TLS verification on unless [--no-ssl-verify] is set. *)
Theorem main_exit_code_and_requests (args : Args) (w : World) (json_data : value) :
  let health := actuator_request (checker_of args) "/actuator/health" in
  let info := actuator_request (checker_of args) "/actuator/info" in
  parse_api_data json_loads args = inl json_data ->
  escaping_answer (next_outcome w health) = None ->
  escaping_answer (second_outcome w info) = None ->
  ended (run args w) =
    Exit (if healthy_answer (next_outcome w health) &&
             healthy_answer (second_outcome w info) then 0 else 1) /\
  sent (final (run args w)) =
    (sent w ++ [health; info] ++
       match args_api_endpoint args with
       | Some ((String _ _) as api_endpoint) =>
           [mkRequest (upper (args_api_method args))
              (full_url (checker_of args) api_endpoint) [] json_data
              (args_timeout args) (negb (args_no_ssl_verify args))]
       | _ => []
       end)%list.
Proof.
  intros health info Hparse Hh Hi. subst health info.
  destruct (check_deployment_status_from_answers (checker_of args) (args_module args) w Hh Hi)
    as [status [w1 [Hcheck [Hstatus Hsent]]]].
  destruct (main_after_deployment_check args w w1 json_data status Hparse Hcheck)
    as [Hended Hfinal].
  split.
  - rewrite Hended, Hstatus.
    destruct (healthy_answer (next_outcome w (actuator_request (checker_of args) "/actuator/health")));
      destruct (healthy_answer (second_outcome w (actuator_request (checker_of args) "/actuator/info")));
      reflexivity.
  - rewrite Hfinal, Hsent, <- app_assoc. reflexivity.
Qed.

(** X22: when the health endpoint answers 200 with a body whose decode error
    is a plain [json.JSONDecodeError], [main] ends with that exception
    uncaught, before printing any report. *)
Theorem main_dies_on_raising_health_probe (args : Args) (w : World) (json_data : value)
    (msg : string) :
  parse_api_data json_loads args = inl json_data ->
  escaping_answer
    (next_outcome w (actuator_request (checker_of args) "/actuator/health")) = Some msg ->
  printed (run args w) = [] /\
  ended (run args w) = Uncaught (DecodeError (json_JSONDecodeError msg)).
Proof.
  intros Hparse Hh.
  destruct (check_deployment_status_health_raises
              (checker_of args) (args_module args) w msg Hh) as [Hfst _].
  subst run checker_of. unfold main. rewrite Hparse. cbv zeta.
  destruct (check_deployment_status _ (args_module args) w) as [[status | e] w1];
    cbn [fst] in Hfst; [discriminate Hfst |].
  injection Hfst as ->. split; reflexivity.
Qed.

End MainProperties.

Lemma main_rejects_invalid_api_data_witness :
  main (fun _ => inr "Expecting value") (fun _ => "{}") (fun _ => "0.00") (fun _ => "now")
       (mkArgs "https://test-app.com" "m" 30 false (Some "/api/users") "POST"
               (Some "{name:") false)
       (Sample.world (fun _ => Sample.ok_json Sample.up))
  = mkRun [] (Exit 1) (Sample.world (fun _ => Sample.ok_json Sample.up)).
Proof.
  apply (main_rejects_invalid_api_data
           (fun _ => inr "Expecting value") (fun _ => "{}") (fun _ => "0.00") (fun _ => "now")
           (mkArgs "https://test-app.com" "m" 30 false (Some "/api/users") "POST"
                   (Some "{name:") false)
           (Sample.world (fun _ => Sample.ok_json Sample.up))
           "{name:" "Expecting value").
  - reflexivity.
  - discriminate.
  - reflexivity.
Defined.

Lemma main_exit_code_and_requests_witness :
  ended (main (fun _ => inl (PDict [("name", PStr "Test User")]))
              (fun _ => "{}") (fun _ => "0.00") (fun _ => "now")
              (mkArgs "https://test-app.com/" "m" 30 true (Some "/api/users") "post"
                      (Some "{...}") false)
              Sample.degraded_world)
  = Exit 1 /\
  sent (final (main (fun _ => inl (PDict [("name", PStr "Test User")]))
                    (fun _ => "{}") (fun _ => "0.00") (fun _ => "now")
                    (mkArgs "https://test-app.com/" "m" 30 true (Some "/api/users") "post"
                            (Some "{...}") false)
                    Sample.degraded_world))
  = [mkRequest "GET" "https://test-app.com/actuator/health" [] PNone 30 false;
     mkRequest "GET" "https://test-app.com/actuator/info" [] PNone 30 false;
     mkRequest "POST" "https://test-app.com/api/users" []
               (PDict [("name", PStr "Test User")]) 30 false].
Proof.
  apply (main_exit_code_and_requests
           (fun _ => inl (PDict [("name", PStr "Test User")]))
           (fun _ => "{}") (fun _ => "0.00") (fun _ => "now")
           (mkArgs "https://test-app.com/" "m" 30 true (Some "/api/users") "post"
                   (Some "{...}") false)
           Sample.degraded_world (PDict [("name", PStr "Test User")]));
    reflexivity.
Defined.

Lemma main_dies_on_raising_health_probe_witness :
  printed (main (fun _ => inr "unused") (fun _ => "{}") (fun _ => "0.00") (fun _ => "now")
                (mkArgs "https://test-app.com" "m" 30 false None "GET" None false)
                (Sample.world
                   (fun _ => Sample.ok_html (json_JSONDecodeError "Expecting value"))))
  = [] /\
  ended (main (fun _ => inr "unused") (fun _ => "{}") (fun _ => "0.00") (fun _ => "now")
              (mkArgs "https://test-app.com" "m" 30 false None "GET" None false)
              (Sample.world
                 (fun _ => Sample.ok_html (json_JSONDecodeError "Expecting value"))))
  = Uncaught (DecodeError (json_JSONDecodeError "Expecting value")).
Proof.
  apply (main_dies_on_raising_health_probe
           (fun _ => inr "unused") (fun _ => "{}") (fun _ => "0.00") (fun _ => "now")
           (mkArgs "https://test-app.com" "m" 30 false None "GET" None false)
           (Sample.world (fun _ => Sample.ok_html (json_JSONDecodeError "Expecting value")))
           PNone "Expecting value");
    reflexivity.
Defined.
